(** * xm-causal: the MetaAgent task handler of [metaagent.py]

    A shallow embedding of the three entry points [on_create], [on_receive]
    and [on_destroy].  The handler is glue code around [json], [pathlib],
    [pandas], [networkx] and [dowhy]; those libraries are not part of the
    repository, so what they compute is taken from an environment record
    [Env], and every theorem below holds for all environments.  What the
    handler itself does (which exceptions each [try] catches, the order of
    the checks, the nested loop, the shape of the dictionaries it builds) is
    translated statement for statement. *)

From Stdlib Require Import ZArith String Ascii List Floats.PrimFloat.
From stdpp Require Import base option list strings gmap pretty.

Local Open Scope string_scope.
Local Open Scope list_scope.
#[local] Set Warnings "-register-all".

(** ** Python values *)

(** Handles of objects whose class is defined by a library (a [DataFrame],
    a [DiGraph], a [CausalModel], a [pathlib.Path], a numpy array ...). *)
Definition objref := N.

(** The values the handler can see.  A dictionary is kept as its list of
    items in insertion order, which is the order [json.dumps] writes. *)
Inductive pyval : Type :=
| PNone
| PBool (b : bool)
| PInt (n : Z)
| PFloat (x : float)
| PStr (s : string)
| PBytes (bs : list Byte.byte)
| PList (items : list pyval)
| PTuple (items : list pyval)
| PDict (items : list (pyval * pyval))
| PObj (o : objref).

(** JSON documents, as [json.loads] reads them and [json.dumps] writes them. *)
Inductive json : Type :=
| JNull
| JBool (b : bool)
| JInt (n : Z)
| JFloat (x : float)
| JStr (s : string)
| JArr (items : list json)
| JObj (members : list (string * json)).

(** ** Exceptions *)

(** The classes the handler distinguishes.  Every exception of the model is
    an instance of [Exception]; [KeyboardInterrupt] and [SystemExit] are
    signals to the process, not results of a call, and are not modelled. *)
Inductive exn_class : Type :=
| Exception
| TypeError
| ValueError
| JSONDecodeError
| UnicodeDecodeError
| OSError
| LibraryError (name : string).

(** [exn_str] is [str(e)], the text an f-string inserts for [{e}]. *)
Record exn : Type := mk_exn { exn_cls : exn_class; exn_str : string }.

(** [issubclass c d]: [json.JSONDecodeError] and [UnicodeDecodeError] derive
    from [ValueError]; everything derives from [Exception]. *)
Definition issubclass (c d : exn_class) : bool :=
  match d, c with
  | Exception, _ => true
  | TypeError, TypeError => true
  | ValueError, (ValueError | JSONDecodeError | UnicodeDecodeError) => true
  | JSONDecodeError, JSONDecodeError => true
  | UnicodeDecodeError, UnicodeDecodeError => true
  | OSError, OSError => true
  | LibraryError n, LibraryError m => String.eqb n m
  | _, _ => false
  end.

Definition isinstance (e : exn) (d : exn_class) : bool := issubclass (exn_cls e) d.

(** An [except (C1, ..., Cn)] clause. *)
Definition except (classes : list exn_class) (e : exn) : bool :=
  existsb (isinstance e) classes.

(** ** Results of calls that may raise *)

Inductive pyresult (A : Type) : Type :=
| Return (a : A)
| Raise (e : exn).
Arguments Return {A} a.
Arguments Raise {A} e.

#[global] Instance pyresult_ret : MRet pyresult := fun A a => Return a.
#[global] Instance pyresult_bind : MBind pyresult := fun A B f m =>
  match m with
  | Return a => f a
  | Raise e => Raise e
  end.
#[global] Instance pyresult_fmap : FMap pyresult := fun A B f m =>
  match m with
  | Return a => Return (f a)
  | Raise e => Raise e
  end.

(** [try: body / except classes as e: handler e] for a pure computation. *)
Definition try_catch {A} (body : pyresult A) (classes : list exn_class)
    (handler : exn → pyresult A) : pyresult A :=
  match body with
  | Return a => Return a
  | Raise e => if except classes e then handler e else Raise e
  end.

(** ** The environment: what the libraries compute *)

Record Env : Type := mk_env {
  (** [json]: the decoder on text, the text of a document, and the text
      [float.__repr__] gives (used for dictionary keys that are floats). *)
  json_decode : string → pyresult json;
  json_text : json → string;
  float_repr : float → string;
  (** [bytes.decode(detect_encoding(b), 'surrogatepass')]. *)
  bytes_decode : list Byte.byte → pyresult string;
  (** Library objects: the name of their class, [iter] and [os.fspath] (for
      [os.PathLike] objects); and [str(v)] for a value that is not a
      string. *)
  obj_class : objref → string;
  obj_iter : objref → pyresult (list pyval);
  obj_fspath : objref → option string;
  value_str : pyval → string;
  (** [pathlib]: the message of the [TypeError] of [Path(x)] (it differs
      between CPython versions), and [Path(p).exists()]. *)
  path_type_error : pyval → string;
  path_exists : string → pyresult bool;
  (** [pandas.read_csv], [networkx.DiGraph]. *)
  read_csv : string → pyresult pyval;
  DiGraph : pyval → pyresult pyval;
  (** [dowhy]: [CausalModel(data, graph, treatment, outcome)],
      [model.identify_effect(proceed_when_unidentified=True)],
      [model.estimate_effect(estimand, method_name, control_value=0,
      treatment_value=1)], [estimate.value] and [str(estimate)]. *)
  CausalModel : pyval → pyval → pyval → pyval → pyresult pyval;
  identify_effect : pyval → pyresult pyval;
  estimate_effect : pyval → pyval → pyval → pyresult pyval;
  estimate_value : pyval → pyresult pyval;
  estimate_str : pyval → pyresult string;
}.

(** ** Builtins and the [json] and [pathlib] front ends *)

Section Builtins.
Variable E : Env.

(** [type(v).__name__], as it appears in the messages of [TypeError]s. *)
Definition type_name (v : pyval) : string :=
  match v with
  | PNone => "NoneType"
  | PBool _ => "bool"
  | PInt _ => "int"
  | PFloat _ => "float"
  | PStr _ => "str"
  | PBytes _ => "bytes"
  | PList _ => "list"
  | PTuple _ => "tuple"
  | PDict _ => "dict"
  | PObj o => obj_class E o
  end.

Definition type_error (msg : string) : exn := mk_exn TypeError msg.
Definition value_error (msg : string) : exn := mk_exn ValueError msg.

(** The text an f-string inserts for [{v}]: a string as it is, any other
    value through [str]. *)
Definition py_format (v : pyval) : string :=
  match v with
  | PStr s => s
  | _ => value_str E v
  end.

(** [x is None]. *)
Definition is_None (v : pyval) : bool :=
  match v with PNone => true | _ => false end.

(** The items a [for] loop over [v] visits: the elements of a list or a
    tuple, the characters of a string, the bytes of a [bytes] as integers,
    the keys of a dictionary; what a library object yields is the
    environment's; anything else is not iterable. *)
Definition py_iter (v : pyval) : pyresult (list pyval) :=
  match v with
  | PList l | PTuple l => Return l
  | PStr s => Return ((λ c, PStr (String c EmptyString)) <$> list_ascii_of_string s)
  | PBytes bs => Return ((λ b, PInt (Z.of_N (Byte.to_N b))) <$> bs)
  | PDict kvs => Return (fst <$> kvs)
  | PObj o => obj_iter E o
  | PNone | PBool _ | PInt _ | PFloat _ =>
      Raise (type_error ("'" +:+ type_name v +:+ "' object is not iterable"))
  end.

(** *** Reading JSON *)

(** [d[k] = v] on the items of a dictionary whose keys are strings: an
    existing key keeps its place and takes the new value. *)
Fixpoint dict_set (k : string) (v : pyval) (kvs : list (pyval * pyval))
    : list (pyval * pyval) :=
  match kvs with
  | [] => [(PStr k, v)]
  | (PStr k', v') :: rest =>
      if String.eqb k k' then (PStr k', v) :: rest
      else (PStr k', v') :: dict_set k v rest
  | kv :: rest => kv :: dict_set k v rest
  end.

(** The Python value of a JSON document: objects become dictionaries (of
    a repeated name the last value stays), arrays become lists. *)
Fixpoint of_json (j : json) : pyval :=
  match j with
  | JNull => PNone
  | JBool b => PBool b
  | JInt n => PInt n
  | JFloat x => PFloat x
  | JStr s => PStr s
  | JArr js => PList (of_json <$> js)
  | JObj ms =>
      PDict ((fix members (ms : list (string * json)) (acc : list (pyval * pyval)) :=
                match ms with
                | [] => acc
                | (k, j) :: rest => members rest (dict_set k (of_json j) acc)
                end) ms [])
  end.

(** [json.loads(s)]: text is decoded; [bytes] are first turned into text;
    any other argument is a [TypeError]. *)
Definition json_loads (s : pyval) : pyresult pyval :=
  match s with
  | PStr text => of_json <$> json_decode E text
  | PBytes bs => text ← bytes_decode E bs; of_json <$> json_decode E text
  | _ => Raise (type_error ("the JSON object must be str, bytes or bytearray, not "
                            +:+ type_name s))
  end.

(** *** Writing JSON *)

(** The name [json.dumps] writes for a dictionary key. *)
Definition json_key (k : pyval) : pyresult string :=
  match k with
  | PStr s => Return s
  | PBool true => Return "true"
  | PBool false => Return "false"
  | PNone => Return "null"
  | PInt n => Return (pretty n)
  | PFloat x => Return (float_repr E x)
  | _ => Raise (type_error ("keys must be str, int, float, bool or None, not "
                            +:+ type_name k))
  end.

(** The document [json.dumps(v)] writes, or the [TypeError] of the first
    value (in the order of writing) that has no JSON form. *)
Fixpoint to_json (v : pyval) : pyresult json :=
  match v with
  | PNone => Return JNull
  | PBool b => Return (JBool b)
  | PInt n => Return (JInt n)
  | PFloat x => Return (JFloat x)
  | PStr s => Return (JStr s)
  | PList l | PTuple l =>
      JArr <$> (fix elements (l : list pyval) : pyresult (list json) :=
                  match l with
                  | [] => Return []
                  | x :: rest => j ← to_json x; js ← elements rest; Return (j :: js)
                  end) l
  | PDict kvs =>
      JObj <$> (fix members (kvs : list (pyval * pyval)) : pyresult (list (string * json)) :=
                  match kvs with
                  | [] => Return []
                  | (k, x) :: rest =>
                      name ← json_key k; j ← to_json x; ms ← members rest;
                      Return ((name, j) :: ms)
                  end) kvs
  | PBytes _ | PObj _ =>
      Raise (type_error ("Object of type " +:+ type_name v +:+ " is not JSON serializable"))
  end.

(** [json.dumps(v)]. *)
Definition json_dumps (v : pyval) : pyresult string :=
  json_text E <$> to_json v.

(** *** Paths *)

(** [pathlib.Path(x)]: a string or an [os.PathLike] object names a path;
    a path is kept as the string it was made from. *)
Definition pathlib_Path (x : pyval) : pyresult string :=
  match x with
  | PStr s => Return s
  | PObj o =>
      match obj_fspath E o with
      | Some s => Return s
      | None => Raise (type_error (path_type_error E x))
      end
  | _ => Raise (type_error (path_type_error E x))
  end.

(** *** Dictionaries *)

(** [d[k]] for a string key [k], on a value. *)
Fixpoint items_get (k : string) (kvs : list (pyval * pyval)) : option pyval :=
  match kvs with
  | [] => None
  | (PStr k', v) :: rest => if String.eqb k k' then Some v else items_get k rest
  | _ :: rest => items_get k rest
  end.

Definition dict_get (d : pyval) (k : string) : option pyval :=
  match d with
  | PDict kvs => items_get k kvs
  | _ => None
  end.

(** The keys of a dictionary, in order. *)
Definition dict_keys (d : pyval) : list pyval :=
  match d with
  | PDict kvs => fst <$> kvs
  | _ => []
  end.

End Builtins.

(** ** Statements: state and exceptions *)

(** What a call can read or write besides its argument: the variables of
    the module and the lines written to the standard output. *)
Record world : Type := mk_world {
  module_globals : gmap string pyval;
  stdout : list string;
}.

(** A block of statements: run from a world, it returns or raises, and
    leaves a world. *)
Definition py (A : Type) : Type := world → pyresult A * world.

#[global] Instance py_ret : MRet py := fun A a w => (Return a, w).
#[global] Instance py_bind : MBind py := fun A B f m w =>
  match m w with
  | (Return a, w') => f a w'
  | (Raise e, w') => (Raise e, w')
  end.

(** A call into a library, which touches nothing of the world. *)
Definition call {A} (r : pyresult A) : py A := fun w => (r, w).

(** [print(line)]. *)
Definition print (line : string) : py unit :=
  fun w => (Return tt, mk_world (module_globals w) (stdout w ++ [line])).

(** [try: body / except classes as e: handler e]. *)
Definition try_except {A} (body : py A) (classes : list exn_class)
    (handler : exn → py A) : py A :=
  fun w =>
    match body w with
    | (Return a, w') => (Return a, w')
    | (Raise e, w') => if except classes e then handler e w' else (Raise e, w')
    end.

(** [for x in xs: acc = body acc x], for a loop that updates the local
    variable [acc]; an exception that leaves the body ends the loop. *)
Fixpoint for_each {X S} (xs : list X) (acc : S) (body : S → X → py S) : py S :=
  match xs with
  | [] => mret acc
  | x :: rest => acc' ← body acc x; for_each rest acc' body
  end.

(** A dictionary display [{k1: v1, ..., kn: vn}] with string keys. *)
Definition dict_of (kvs : list (string * pyval)) : pyval :=
  PDict (prod_map PStr id <$> kvs).

(** [data.get(k, None)] on the argument of a handler. *)
Definition get (data : gmap string pyval) (k : string) : pyval :=
  default PNone (data !! k).

(** ** The handlers *)

Section Handlers.
Variable E : Env.

(** The [try] block of [on_create]. *)
Definition on_create_body (data : gmap string pyval) : py pyval :=
  mret (dict_of [("status", PStr "initialized")]).

Definition on_create (data : gmap string pyval) : py pyval :=
  try_except (on_create_body data) [Exception]
    (λ e, mret (dict_of [("status", PStr ("Error " +:+ exn_str e))])).

(** Lines 39 to 49, loading the dataset: JSON first, then a CSV file when
    [json.loads] raised a [JSONDecodeError] or a [TypeError]. *)
Definition load_dataset (analysis_data_string : pyval) : pyresult pyval :=
  analysis_data ←
    try_catch (json_loads E analysis_data_string) [JSONDecodeError; TypeError]
      (λ _,
        analysis_data_path ← pathlib_Path E analysis_data_string;
        found ← path_exists E analysis_data_path;
        if found : bool then read_csv E analysis_data_path
        else Raise (value_error "Invalid data path or data format."));
  if is_None analysis_data
  then Raise (value_error "No data provided for analysis.")
  else Return analysis_data.

(** Lines 51 to 55, parsing the graph edges. *)
Definition parse_graph_edges (analysis_graph_edges_string : pyval) : pyresult pyval :=
  if negb (is_None analysis_graph_edges_string)
  then json_loads E analysis_graph_edges_string
  else Raise (value_error "No graph edges provided for analysis.").

(** Lines 67 to 93, the [try] block of one treatment-outcome pair, up to
    the record it appends. *)
Definition estimate_pair (analysis_data analysis_graph analysis_method
    treatment outcome : pyval) : pyresult pyval :=
  causal_model ← CausalModel E analysis_data analysis_graph treatment outcome;
  identified_estimand ← identify_effect E causal_model;
  causal_estimate ← estimate_effect E causal_model identified_estimand analysis_method;
  value ← estimate_value E causal_estimate;
  interpretation ← estimate_str E causal_estimate;
  Return (dict_of [
    ("treatment", treatment);
    ("outcome", outcome);
    ("estimate", value);
    ("method", analysis_method);
    ("interpretation", PStr interpretation)]).

(** Lines 66 to 100, the body of the inner loop: the pair's record is
    appended to [effect_data]; when anything in the [try] block raised, the
    error is printed and an error record is appended instead. *)
Definition record_pair (analysis_data analysis_graph analysis_method
    treatment : pyval) (effect_data : list pyval) (outcome : pyval) : py (list pyval) :=
  try_except
    (entry ← call (estimate_pair analysis_data analysis_graph analysis_method
                     treatment outcome);
     mret (effect_data ++ [entry]))
    [Exception]
    (λ e,
      _ ← print ("Error estimating effect for treatment " +:+ py_format E treatment
                 +:+ " and outcome " +:+ py_format E outcome
                 +:+ ": " +:+ exn_str e);
      mret (effect_data ++ [dict_of [
        ("treatment", treatment);
        ("outcome", outcome);
        ("error", PStr (exn_str e))]])).

(** Lines 102 to 108, the dictionary that is serialized. *)
Definition compile_result (effect_data : list pyval)
    (analysis_graph_edges analysis_treatments analysis_outcomes : pyval) : pyval :=
  dict_of [
    ("causal_effects", PList effect_data);
    ("graph_edges", analysis_graph_edges);
    ("treatments", analysis_treatments);
    ("outcomes", analysis_outcomes)].

(** The [try] block of [on_receive] (lines 32 to 110). *)
Definition on_receive_body (data : gmap string pyval) : py pyval :=
  let analysis_data_string := get data "dataset" in
  let analysis_graph_edges_string := get data "graph_edges" in
  let analysis_method := get data "method" in
  let analysis_treatments := get data "treatment" in
  let analysis_outcomes := get data "outcome" in
  analysis_data ← call (load_dataset analysis_data_string);
  analysis_graph_edges ← call (parse_graph_edges analysis_graph_edges_string);
  analysis_graph ← call (DiGraph E analysis_graph_edges);
  treatments ← call (py_iter E analysis_treatments);
  effect_data ←
    for_each treatments [] (λ effect_data treatment,
      outcomes ← call (py_iter E analysis_outcomes);
      for_each outcomes effect_data
        (record_pair analysis_data analysis_graph analysis_method treatment));
  let result :=
    compile_result effect_data analysis_graph_edges analysis_treatments analysis_outcomes in
  text ← call (json_dumps E result);
  mret (dict_of [("result", PStr text)]).

Definition on_receive (data : gmap string pyval) : py pyval :=
  try_except (on_receive_body data) [Exception]
    (λ e, mret (dict_of [("status", PStr ("Error " +:+ exn_str e))])).

Definition on_destroy : py pyval :=
  mret (dict_of [("status", PStr "destroyed")]).

End Handlers.

(** ** Sequences of calls *)

(** One call of the module's interface. *)
Inductive handler_call : Type :=
| Create (data : gmap string pyval)
| Receive (data : gmap string pyval)
| Destroy.

Definition run_call (E : Env) (c : handler_call) : py pyval :=
  match c with
  | Create data => on_create data
  | Receive data => on_receive E data
  | Destroy => on_destroy
  end.

(** The calls of [cs] one after the other, each from the world the one
    before left: what each returned or raised, and the last world. *)
Fixpoint run_calls (E : Env) (cs : list handler_call) (w : world)
    : list (pyresult pyval) * world :=
  match cs with
  | [] => ([], w)
  | c :: rest =>
      let '(r, w') := run_call E c w in
      let '(rs, w'') := run_calls E rest w' in
      (r :: rs, w'')
  end.

(** ** What a call of [on_receive] computes *)

Section Outcome.
Variable E : Env.

(** The world after printing [lines]. *)
Definition printed (lines : list string) (w : world) : world :=
  mk_world (module_globals w) (stdout w ++ lines).

(** The record of an error [e] for a pair. *)
Definition error_entry (treatment outcome : pyval) (e : exn) : pyval :=
  dict_of [("treatment", treatment); ("outcome", outcome); ("error", PStr (exn_str e))].

(** The record [record_pair] appends for a pair. *)
Definition pair_entry (d g m : pyval) (p : pyval * pyval) : pyval :=
  match estimate_pair E d g m p.1 p.2 with
  | Return entry => entry
  | Raise e => error_entry p.1 p.2 e
  end.

(** The lines [record_pair] prints for a pair. *)
Definition pair_output (d g m : pyval) (p : pyval * pyval) : list string :=
  match estimate_pair E d g m p.1 p.2 with
  | Return _ => []
  | Raise e =>
      ["Error estimating effect for treatment " +:+ py_format E p.1
       +:+ " and outcome " +:+ py_format E p.2 +:+ ": " +:+ exn_str e]
  end.

(** The pairs the nested loop visits: the outcomes are only iterated when
    there is a treatment. *)
Definition pairs_of (analysis_treatments analysis_outcomes : pyval)
    : pyresult (list (pyval * pyval)) :=
  treatments ← py_iter E analysis_treatments;
  match treatments with
  | [] => Return []
  | _ :: _ => outcomes ← py_iter E analysis_outcomes; Return (list_prod treatments outcomes)
  end.

(** Everything before the serialization: the dataset, the parsed edges,
    the graph and the pairs. *)
Definition prepare (data : gmap string pyval)
    : pyresult (pyval * pyval * pyval * list (pyval * pyval)) :=
  d ← load_dataset E (get data "dataset");
  ge ← parse_graph_edges E (get data "graph_edges");
  g ← DiGraph E ge;
  ps ← pairs_of (get data "treatment") (get data "outcome");
  Return (d, ge, g, ps).

(** What the [try] block of [on_receive] returns or raises. *)
Definition receive_result (data : gmap string pyval) : pyresult pyval :=
  '(d, ge, g, ps) ← prepare data;
  text ← json_dumps E (compile_result (pair_entry d g (get data "method") <$> ps)
                         ge (get data "treatment") (get data "outcome"));
  Return (dict_of [("result", PStr text)]).

(** What a call of [on_receive] prints. *)
Definition receive_output (data : gmap string pyval) : list string :=
  match prepare data with
  | Return (d, ge, g, ps) => ps ≫= pair_output d g (get data "method")
  | Raise _ => []
  end.

End Outcome.

(** ** An example environment

    A small world to run the handlers in: one CSV file [data.csv] with the
    columns [x] and [y], a JSON decoder that knows the documents the
    examples use, and a [dowhy] that estimates 0.5 for columns of the file
    and raises for any other name. *)

Module Example.

Definition quote : string := String "034" EmptyString.

(** A string between quotes, with quotes and backslashes escaped. *)
Definition quoted (s : string) : string :=
  quote +:+
  String.concat "" ((λ c, if Ascii.eqb c "034" then "\" +:+ quote
                          else if Ascii.eqb c "\" then "\\"
                          else String c EmptyString) <$> list_ascii_of_string s)
  +:+ quote.

Definition repr_float (x : float) : string :=
  if PrimFloat.eqb x 0.5 then "0.5" else "0.0".

(** The text of a document, with the separators [json.dumps] uses. *)
Fixpoint render (j : json) : string :=
  match j with
  | JNull => "null"
  | JBool true => "true"
  | JBool false => "false"
  | JInt n => pretty n
  | JFloat x => repr_float x
  | JStr s => quoted s
  | JArr js => "[" +:+ String.concat ", " (render <$> js) +:+ "]"
  | JObj ms =>
      "{" +:+ String.concat ", "
                ((fix members (ms : list (string * json)) : list string :=
                    match ms with
                    | [] => []
                    | (k, j) :: rest => (quoted k +:+ ": " +:+ render j) :: members rest
                    end) ms)
      +:+ "}"
  end.

(** The edge list [[["x", "y"]]] as text. *)
Definition edges_text : string :=
  "[[" +:+ quoted "x" +:+ ", " +:+ quoted "y" +:+ "]]".

Definition decode (text : string) : pyresult json :=
  if String.eqb text "null" then Return JNull
  else if String.eqb text "[]" then Return (JArr [])
  else if String.eqb text edges_text then Return (JArr [JArr [JStr "x"; JStr "y"]])
  else Raise (mk_exn JSONDecodeError "Expecting value: line 1 column 1 (char 0)").

Definition dataframe : pyval := PObj 1%N.
Definition digraph : pyval := PObj 2%N.
Definition causal_model : pyval := PObj 3%N.
Definition estimand : pyval := PObj 4%N.
Definition causal_estimate : pyval := PObj 5%N.

Definition class_name (o : objref) : string :=
  match o with
  | 1%N => "DataFrame"
  | 2%N => "DiGraph"
  | 3%N => "CausalModel"
  | 4%N => "IdentifiedEstimand"
  | 5%N => "CausalEstimate"
  | _ => "object"
  end.

Definition str (v : pyval) : string :=
  match v with
  | PStr s => s
  | PBytes bs => "b'" +:+ string_of_list_byte bs +:+ "'"
  | PObj o => "<" +:+ class_name o +:+ " object>"
  | _ => "<value>"
  end.

Definition is_column (v : pyval) : bool :=
  match v with
  | PStr s => String.eqb s "x" || String.eqb s "y"
  | _ => false
  end.

Definition env : Env := {|
  json_decode := decode;
  json_text := render;
  float_repr := repr_float;
  bytes_decode := λ _, Raise (mk_exn UnicodeDecodeError "invalid start byte");
  obj_class := class_name;
  obj_iter := λ o, Raise (type_error ("'" +:+ class_name o +:+ "' object is not iterable"));
  obj_fspath := λ _, None;
  value_str := str;
  path_type_error := λ v,
    "expected str, bytes or os.PathLike object, not "
    +:+ match v with
        | PNone => "NoneType"
        | PBool _ => "bool"
        | PInt _ => "int"
        | PFloat _ => "float"
        | PStr _ => "str"
        | PBytes _ => "bytes"
        | PList _ => "list"
        | PTuple _ => "tuple"
        | PDict _ => "dict"
        | PObj o => class_name o
        end;
  path_exists := λ p, Return (String.eqb p "data.csv");
  read_csv := λ p, Return dataframe;
  DiGraph := λ _, Return digraph;
  CausalModel := λ d g t o,
    if is_column t && is_column o then Return causal_model
    else Raise (mk_exn (LibraryError "KeyError") "column not found in the data");
  identify_effect := λ _, Return estimand;
  estimate_effect := λ _ _ _, Return causal_estimate;
  estimate_value := λ _, Return (PFloat 0.5);
  estimate_str := λ _, Return "*** Causal Estimate ***";
|}.

(** A world with no module variable and nothing printed yet. *)
Definition w0 : world := mk_world ∅ [].

(** A task for the file, with one treatment in the file and one not. *)
Definition task : gmap string pyval :=
  {[ "dataset" := PStr "data.csv";
     "graph_edges" := PStr edges_text;
     "method" := PStr "backdoor.linear_regression";
     "treatment" := PList [PStr "x"; PStr "z"];
     "outcome" := PList [PStr "y"] ]}.

(** The same task with a [bytes] object as the treatment's name. *)
Definition bytes_task : gmap string pyval :=
  <["treatment" := PList [PBytes [Byte.x7a]]]> task.

(** A task that names a file that does not exist and gives no edges. *)
Definition missing_task : gmap string pyval :=
  {[ "dataset" := PStr "missing.csv" ]}.

(** A task whose dataset is the JSON text [null]. *)
Definition null_task : gmap string pyval :=
  <["dataset" := PStr "null"]> task.

(** The task without its edges. *)
Definition edgeless_task : gmap string pyval := delete "graph_edges" task.

(** What [on_receive] answers to [task]. *)
Definition answer : string :=
  Eval vm_compute in
    match (on_receive env task w0).1 with
    | Return (PDict [(_, PStr text)]) => text
    | _ => ""
    end.

End Example.

(** Takes a [Forall2] over a list of known length apart, member by member. *)
Ltac split_members :=
  repeat match goal with
    | H : Forall2 _ (_ :: _) _ |- _ =>
        apply Forall2_cons_inv_l in H as (? & ? & ? & H & ->)
    | H : Forall2 _ [] _ |- _ => apply Forall2_nil_inv_l in H as ->
    end.

(** ** The example script (lines 125 to 184)

    What the module runs when it is executed as a script: it binds five
    module variables, serializes the edges, and calls the three handlers,
    printing what each returns.  [print(a, b)] writes [a], a space and
    [str(b)]. *)

Module Script.

(** [name = v] at module level. *)
Definition assign (name : string) (v : pyval) : py unit :=
  fun w => (Return tt, mk_world (<[name := v]> (module_globals w)) (stdout w)).

Definition method_name : string := "backdoor.linear_regression".

Definition edges : list (string * string) := [
  (* Air intake system *)
  ("operating_altitude", "air_filter_pressure");
  ("air_filter_pressure", "egt_turbo_inlet");
  ("air_filter_pressure", "fuel_consumption");
  (* Primary mechanical relationships *)
  ("payload_weight", "engine_load");
  ("haul_road_gradient", "engine_load");
  ("engine_load", "engine_rpm");
  ("engine_load", "fuel_consumption");
  ("engine_rpm", "vehicle_speed");
  ("engine_rpm", "air_filter_pressure");
  (* Environmental influences *)
  ("operating_altitude", "engine_load");
  ("ambient_temp", "engine_coolant_temp");
  ("ambient_temp", "egt_turbo_inlet");
  (* Fuel and combustion chain *)
  ("fuel_consumption", "egt_turbo_inlet");
  ("engine_load", "egt_turbo_inlet");
  (* Temperature cascade through exhaust system *)
  ("egt_turbo_inlet", "egt_turbo_outlet");
  ("egt_turbo_outlet", "egt_stack");
  (* Cooling system relationships *)
  ("engine_coolant_temp", "egt_turbo_inlet");
  ("engine_rpm", "engine_coolant_temp")].

Definition treatments : list string :=
  ["air_filter_pressure"; "engine_coolant_temp"; "engine_load";
   "ambient_temp"; "engine_rpm"; "fuel_consumption"].

Definition outcomes : list string :=
  ["egt_turbo_inlet"; "egt_turbo_outlet"; "egt_stack"].

(** The dictionary sent to [on_receive] (lines 175 to 181). *)
Definition task (edges_json : string) : gmap string pyval :=
  {[ "dataset" := PStr "data.csv";
     "graph_edges" := PStr edges_json;
     "method" := PStr method_name;
     "treatment" := PList (PStr <$> treatments);
     "outcome" := PList (PStr <$> outcomes) ]}.

Definition main (E : Env) : py unit :=
  _ ← assign "method_name" (PStr method_name);
  _ ← assign "edges" (PList ((λ '(u, v), PTuple [PStr u; PStr v]) <$> edges));
  edges_json ← call (json_dumps E (PList ((λ '(u, v), PList [PStr u; PStr v]) <$> edges)));
  _ ← assign "edges_json" (PStr edges_json);
  _ ← assign "treatments" (PList (PStr <$> treatments));
  _ ← assign "outcomes" (PList (PStr <$> outcomes));
  created ← on_create ∅;
  _ ← print ("on_create (empty):" +:+ " " +:+ py_format E created);
  received ← on_receive E (task edges_json);
  _ ← print ("on_receive (task):" +:+ " " +:+ py_format E received);
  destroyed ← on_destroy;
  print ("on_destroy:" +:+ " " +:+ py_format E destroyed).

End Script.

(** ** Devices for the statements *)

(** The environment [E] with another file system: [exists] answers for
    [Path.exists] and [csv] for [pandas.read_csv]. *)
Definition with_files (E : Env) (exists_ : string → pyresult bool)
    (csv : string → pyresult pyval) : Env :=
  {| json_decode := json_decode E;
     json_text := json_text E;
     float_repr := float_repr E;
     bytes_decode := bytes_decode E;
     obj_class := obj_class E;
     obj_iter := obj_iter E;
     obj_fspath := obj_fspath E;
     value_str := value_str E;
     path_type_error := path_type_error E;
     path_exists := exists_;
     read_csv := csv;
     DiGraph := DiGraph E;
     CausalModel := CausalModel E;
     identify_effect := identify_effect E;
     estimate_effect := estimate_effect E;
     estimate_value := estimate_value E;
     estimate_str := estimate_str E |}.

(** The example task with its treatments given as the string ["xz"], and
    what [on_receive] answers to it. *)
Definition string_task : gmap string pyval :=
  <["treatment" := PStr "xz"]> Example.task.

Definition string_answer : string :=
  Eval vm_compute in
    match (on_receive Example.env string_task Example.w0).1 with
    | Return (PDict [(_, PStr text)]) => text
    | _ => ""
    end.

(** The example environment with one more object, a [pathlib.Path] for
    [data.csv]. *)
Definition pathlike_env : Env :=
  {| json_decode := json_decode Example.env;
     json_text := json_text Example.env;
     float_repr := float_repr Example.env;
     bytes_decode := bytes_decode Example.env;
     obj_class := λ o, if N.eqb o 9 then "PosixPath" else obj_class Example.env o;
     obj_iter := obj_iter Example.env;
     obj_fspath := λ o, if N.eqb o 9 then Some "data.csv" else None;
     value_str := value_str Example.env;
     path_type_error := path_type_error Example.env;
     path_exists := path_exists Example.env;
     read_csv := read_csv Example.env;
     DiGraph := DiGraph Example.env;
     CausalModel := CausalModel Example.env;
     identify_effect := identify_effect Example.env;
     estimate_effect := estimate_effect Example.env;
     estimate_value := estimate_value Example.env;
     estimate_str := estimate_str Example.env |}.

(** A value that [json.dumps] accepts. *)
Definition serializable (E : Env) (v : pyval) : Prop :=
  ∃ j, to_json E v = Return j.

(** The member [k] of a JSON object. *)
Definition json_member (doc : json) (k : string) : option json :=
  match doc with
  | JObj ms => snd <$> List.find (λ m, String.eqb k m.1) ms
  | _ => None
  end.

(** No object of the document has two members of the same name. *)
Fixpoint distinct_names (j : json) : bool :=
  match j with
  | JArr js => forallb distinct_names js
  | JObj ms =>
      bool_decide (NoDup ms.*1) &&
      (fix members (ms : list (string * json)) : bool :=
         match ms with
         | [] => true
         | (_, j) :: rest => distinct_names j && members rest
         end) ms
  | _ => true
  end.

(** Induction on documents, with the hypothesis for every element of an
    array and every member of an object. *)
Section json_induction.
Variable P : json → Prop.
Hypothesis Hnull : P JNull.
Hypothesis Hbool : ∀ b, P (JBool b).
Hypothesis Hint : ∀ n, P (JInt n).
Hypothesis Hfloat : ∀ x, P (JFloat x).
Hypothesis Hstr : ∀ s, P (JStr s).
Hypothesis Harr : ∀ js, Forall P js → P (JArr js).
Hypothesis Hobj : ∀ ms, Forall (λ m, P m.2) ms → P (JObj ms).

Fixpoint json_nested_ind (j : json) : P j :=
  match j with
  | JNull => Hnull
  | JBool b => Hbool b
  | JInt n => Hint n
  | JFloat x => Hfloat x
  | JStr s => Hstr s
  | JArr js =>
      Harr js ((fix elements (js : list json) : Forall P js :=
                  match js with
                  | [] => List.Forall_nil P
                  | j :: rest => @List.Forall_cons _ P j rest (json_nested_ind j) (elements rest)
                  end) js)
  | JObj ms =>
      Hobj ms ((fix members (ms : list (string * json)) : Forall (λ m, P m.2) ms :=
                  match ms with
                  | [] => List.Forall_nil _
                  | (k, j) :: rest =>
                      @List.Forall_cons _ (λ m, P m.2) (k, j) rest (json_nested_ind j)
                        (members rest)
                  end) ms)
  end.

End json_induction.

(** ** Running the handlers in the example environment *)

Example on_create_empty :
  on_create ∅ Example.w0 = (Return (dict_of [("status", PStr "initialized")]), Example.w0).
Proof. reflexivity. Qed.

(** The task has two pairs; the second one fails and is printed. *)
Example on_receive_task :
  on_receive Example.env Example.task Example.w0
  = (Return (dict_of [("result", PStr Example.answer)]),
     mk_world ∅ ["Error estimating effect for treatment z and outcome y: "
                 +:+ "column not found in the data"]).
Proof. vm_compute. reflexivity. Qed.

(** Without a ['dataset'], [json.loads(None)] and then [Path(None)] raise
    a [TypeError]; the second one reaches the top-level handler. *)
Example on_receive_empty :
  on_receive Example.env ∅ Example.w0
  = (Return (dict_of [("status",
       PStr "Error expected str, bytes or os.PathLike object, not NoneType")]),
     Example.w0).
Proof. reflexivity. Qed.

(** A string is iterated character by character, a dictionary by key. *)
Example py_iter_str :
  py_iter Example.env (PStr "xy") = Return [PStr "x"; PStr "y"].
Proof. reflexivity. Qed.

Example py_iter_dict :
  py_iter Example.env (dict_of [("x", PInt 1); ("y", PInt 2)]) = Return [PStr "x"; PStr "y"].
Proof. reflexivity. Qed.

(** A tuple is written as an array, and a key that is not a string through
    its text; of a repeated name the last value is read back. *)
Example to_json_tuple :
  to_json Example.env (PDict [(PInt 1, PTuple [PStr "a"; PNone])])
  = Return (JObj [("1", JArr [JStr "a"; JNull])]).
Proof. reflexivity. Qed.

Example of_json_repeated_name :
  of_json (JObj [("a", JInt 1); ("b", JInt 2); ("a", JInt 3)])
  = dict_of [("a", PInt 3); ("b", PInt 2)].
Proof. reflexivity. Qed.

(** ** The loop over the pairs *)

Section Loop.
Variable E : Env.

Lemma printed_nil w : printed [] w = w.
Proof. destruct w. unfold printed. simpl. by rewrite app_nil_r. Qed.

Lemma printed_app l1 l2 w : printed l2 (printed l1 w) = printed (l1 ++ l2) w.
Proof. unfold printed. simpl. by rewrite app_assoc. Qed.

Lemma printed_globals l w : module_globals (printed l w) = module_globals w.
Proof. reflexivity. Qed.

Lemma bind_py {A B} (m : py A) (f : A → py B) w :
  (m ≫= f) w
  = match m w with
    | (Return a, w') => f a w'
    | (Raise e, w') => (Raise e, w')
    end.
Proof. reflexivity. Qed.

Lemma bind_call {A B} (r : pyresult A) (f : A → py B) w :
  (call r ≫= f) w
  = match r with
    | Return a => f a w
    | Raise e => (Raise e, w)
    end.
Proof. rewrite bind_py. unfold call. by destruct r. Qed.

(** One pass of the inner loop's body never raises: it appends the pair's
    record and prints the pair's lines. *)
Lemma record_pair_eq d g m t acc o w :
  record_pair E d g m t acc o w
  = (Return (acc ++ [pair_entry E d g m (t, o)]), printed (pair_output E d g m (t, o)) w).
Proof.
  unfold record_pair, try_except, pair_entry, pair_output, call, mbind, py_bind. simpl.
  destruct (estimate_pair E d g m t o) as [entry|e]; simpl.
  - by rewrite printed_nil.
  - reflexivity.
Qed.

(** The inner loop visits every outcome. *)
Lemma inner_loop_eq d g m t O acc w :
  for_each O acc (record_pair E d g m t) w
  = (Return (acc ++ (pair_entry E d g m <$> ((λ o, (t, o)) <$> O))),
     printed (((λ o, (t, o)) <$> O) ≫= pair_output E d g m) w).
Proof.
  revert acc w. induction O as [|o O IH]; intros acc w; simpl.
  - by rewrite app_nil_r, printed_nil.
  - unfold mbind at 1, py_bind. rewrite record_pair_eq, IH.
    by rewrite <- app_assoc, printed_app.
Qed.

(** The outer loop visits every treatment, when the outcomes can be
    iterated. *)
Lemma outer_loop_eq d g m O T acc w :
  for_each T acc (λ effect_data treatment,
    outcomes ← call (Return O);
    for_each outcomes effect_data (record_pair E d g m treatment)) w
  = (Return (acc ++ (pair_entry E d g m <$> list_prod T O)),
     printed (list_prod T O ≫= pair_output E d g m) w).
Proof.
  revert acc w. induction T as [|t T IH]; intros acc w; simpl.
  - by rewrite app_nil_r, printed_nil.
  - unfold mbind at 1, py_bind. unfold mbind at 1, py_bind, call at 1.
    rewrite inner_loop_eq, IH.
    rewrite fmap_app, bind_app, <- app_assoc, printed_app. reflexivity.
Qed.

(** The nested loop as a whole: it returns the records of [pairs_of], in
    order, or raises what iterating raised, before any pair was tried. *)
Lemma loops_eq d g m trs outs T w :
  py_iter E trs = Return T →
  for_each T [] (λ effect_data treatment,
    outcomes ← call (py_iter E outs);
    for_each outcomes effect_data (record_pair E d g m treatment)) w
  = match pairs_of E trs outs with
    | Return ps => (Return (pair_entry E d g m <$> ps), printed (ps ≫= pair_output E d g m) w)
    | Raise e => (Raise e, w)
    end.
Proof.
  intros HT. unfold pairs_of. rewrite HT. simpl.
  destruct T as [|t T].
  - simpl. by rewrite printed_nil.
  - destruct (py_iter E outs) as [O|e] eqn:HO.
    + by rewrite outer_loop_eq.
    + reflexivity.
Qed.

(** The [try] block of [on_receive] is a function of its argument: the
    world only collects what is printed. *)
Lemma on_receive_body_eq data w :
  on_receive_body E data w
  = (receive_result E data, printed (receive_output E data) w).
Proof.
  unfold on_receive_body, receive_result, receive_output, prepare. cbv zeta.
  rewrite bind_call.
  destruct (load_dataset E (get data "dataset")) as [d|e]; cbn [mbind pyresult_bind];
    [|by rewrite printed_nil].
  rewrite bind_call.
  destruct (parse_graph_edges E (get data "graph_edges")) as [ge|e];
    cbn [mbind pyresult_bind]; [|by rewrite printed_nil].
  rewrite bind_call.
  destruct (DiGraph E ge) as [g|e]; cbn [mbind pyresult_bind]; [|by rewrite printed_nil].
  rewrite bind_call.
  destruct (py_iter E (get data "treatment")) as [T|e] eqn:HT.
  - rewrite bind_py, (loops_eq _ _ _ (get data "treatment") _ _ _ HT).
    destruct (pairs_of E (get data "treatment") (get data "outcome")) as [ps|e];
      cbn [mbind pyresult_bind]; [|by rewrite printed_nil].
    rewrite bind_call.
    destruct (json_dumps E _) as [text|e]; reflexivity.
  - unfold pairs_of. rewrite HT. cbn [mbind pyresult_bind]. by rewrite printed_nil.
Qed.

(** A call of [on_receive] always returns: the value of the [try] block,
    or the status made from what it raised. *)
Lemma on_receive_eq data w :
  on_receive E data w
  = (Return match receive_result E data with
            | Return v => v
            | Raise e => dict_of [("status", PStr ("Error " +:+ exn_str e))]
            end,
     printed (receive_output E data) w).
Proof.
  unfold on_receive, try_except. rewrite on_receive_body_eq.
  destruct (receive_result E data); reflexivity.
Qed.

End Loop.

(** ** Serialization of the records *)

Section Serialization.
Variable E : Env.

(** A list is written element by element, in order. *)
Lemma to_json_PList_inv l j :
  to_json E (PList l) = Return j →
  ∃ js, j = JArr js ∧ Forall2 (λ v j, to_json E v = Return j) l js.
Proof.
  simpl. set (elements := fix elements (l : list pyval) := _).
  destruct (elements l) as [js|e] eqn:Hl; simpl; [|discriminate].
  intros [= <-]. exists js. split; [done|].
  revert js Hl. induction l as [|x l IH]; intros js; simpl.
  - intros [= <-]. constructor.
  - destruct (to_json E x) as [jx|] eqn:Hx; simpl; [|discriminate].
    destruct (elements l) as [js'|] eqn:Hl'; simpl; [|discriminate].
    intros [= <-]. constructor; [done|]. by apply IH.
Qed.

(** A dictionary display with string keys is written member by member,
    under the same names. *)
Lemma to_json_dict_of_inv kvs j :
  to_json E (dict_of kvs) = Return j →
  ∃ js, j = JObj (zip kvs.*1 js) ∧ Forall2 (λ kv j, to_json E kv.2 = Return j) kvs js.
Proof.
  unfold dict_of. simpl. set (members := fix members (l : list (pyval * pyval)) := _).
  destruct (members _) as [ms|e] eqn:Hm; simpl; [|discriminate].
  intros [= <-].
  revert ms Hm. induction kvs as [|[k v] kvs IH]; intros ms; simpl.
  - intros [= <-]. exists []. split; [done|constructor].
  - destruct (to_json E v) as [jv|] eqn:Hv; simpl; [|discriminate].
    destruct (members _) as [ms'|] eqn:Hm'; simpl; [|discriminate].
    intros [= <-]. destruct (IH ms' eq_refl) as (js & [= ->] & Hjs).
    exists (jv :: js). split; [done|]. by constructor.
Qed.

(** The record of a pair whose estimation returned has the five fields of
    lines 87 to 93. *)
Lemma estimate_pair_Return d g m t o entry :
  estimate_pair E d g m t o = Return entry →
  ∃ value interpretation,
    entry = dict_of [("treatment", t); ("outcome", o); ("estimate", value);
                     ("method", m); ("interpretation", PStr interpretation)].
Proof.
  unfold estimate_pair.
  destruct (CausalModel E d g t o) as [cm|]; simpl; [|discriminate].
  destruct (identify_effect E cm) as [ie|]; simpl; [|discriminate].
  destruct (estimate_effect E cm ie m) as [ce|]; simpl; [|discriminate].
  destruct (estimate_value E ce) as [v|]; simpl; [|discriminate].
  destruct (estimate_str E ce) as [s|]; simpl; [|discriminate].
  intros [= <-]. by exists v, s.
Qed.

(** The two shapes of a record. *)
Lemma pair_entry_shape d g m p :
  (∃ value interpretation,
     estimate_pair E d g m p.1 p.2
     = Return (dict_of [("treatment", p.1); ("outcome", p.2); ("estimate", value);
                        ("method", m); ("interpretation", PStr interpretation)]) ∧
     pair_entry E d g m p
     = dict_of [("treatment", p.1); ("outcome", p.2); ("estimate", value);
                ("method", m); ("interpretation", PStr interpretation)]) ∨
  (∃ e, estimate_pair E d g m p.1 p.2 = Raise e ∧
        pair_entry E d g m p = error_entry p.1 p.2 e).
Proof.
  unfold pair_entry. destruct (estimate_pair E d g m p.1 p.2) as [entry|e] eqn:He.
  - left. destruct (estimate_pair_Return _ _ _ _ _ _ He) as (v & s & ->). by exists v, s.
  - right. by exists e.
Qed.

(** What comes back from JSON for the record of a pair: the same keys, and
    under ["treatment"] and ["outcome"] the pair's names as JSON gives them
    back. *)
Lemma pair_entry_reparsed d g m p j :
  to_json E (pair_entry E d g m p) = Return j →
  ∃ jt jo,
    to_json E p.1 = Return jt ∧ to_json E p.2 = Return jo ∧
    dict_get (of_json j) "treatment" = Some (of_json jt) ∧
    dict_get (of_json j) "outcome" = Some (of_json jo) ∧
    (dict_keys (of_json j)
       = PStr <$> ["treatment"; "outcome"; "estimate"; "method"; "interpretation"]
     ∨ dict_keys (of_json j) = PStr <$> ["treatment"; "outcome"; "error"]).
Proof.
  destruct (pair_entry_shape d g m p) as [(v & s & _ & ->)|(e & _ & ->)];
    intros (js & -> & Hjs)%to_json_dict_of_inv.
  - split_members. simpl in *. eexists _, _. repeat split; eauto.
  - split_members. simpl in *. eexists _, _. repeat split; eauto.
Qed.

End Serialization.

(** ** Successful calls *)

Section Success.
Variable E : Env.

Lemma prepare_Return data d ge g ps :
  prepare E data = Return (d, ge, g, ps) →
  load_dataset E (get data "dataset") = Return d ∧
  parse_graph_edges E (get data "graph_edges") = Return ge ∧
  DiGraph E ge = Return g ∧
  pairs_of E (get data "treatment") (get data "outcome") = Return ps.
Proof.
  unfold prepare.
  destruct (load_dataset E _) as [d'|]; simpl; [|discriminate].
  destruct (parse_graph_edges E _) as [ge'|]; simpl; [|discriminate].
  destruct (DiGraph E ge') as [g'|] eqn:Hg; simpl; [|discriminate].
  destruct (pairs_of E _ _) as [ps'|]; simpl; [|discriminate].
  intros [=]; subst. by repeat split.
Qed.

(** When the [try] block returns, it returns the text of the document made
    from the compiled result. *)
Lemma receive_result_Return data v :
  receive_result E data = Return v →
  ∃ d ge g ps doc,
    prepare E data = Return (d, ge, g, ps) ∧
    to_json E (compile_result (pair_entry E d g (get data "method") <$> ps) ge
                 (get data "treatment") (get data "outcome")) = Return doc ∧
    v = dict_of [("result", PStr (json_text E doc))].
Proof.
  unfold receive_result, json_dumps.
  destruct (prepare E data) as [[[[d ge] g] ps]|]; cbn [mbind pyresult_bind];
    [|discriminate].
  destruct (to_json E _) as [doc|] eqn:Hdoc; cbn [mbind pyresult_bind fmap pyresult_fmap];
    [|discriminate].
  intros [= <-]. by exists d, ge, g, ps, doc.
Qed.

(** A call answers with a ["result"] only when its [try] block returned. *)
Lemma on_receive_result data w text :
  (on_receive E data w).1 = Return (dict_of [("result", PStr text)]) →
  receive_result E data = Return (dict_of [("result", PStr text)]).
Proof.
  rewrite on_receive_eq. simpl.
  destruct (receive_result E data) as [v|e]; [by intros [= ->]|discriminate].
Qed.

(** The document of a successful call: its four members, and the records
    of the pairs under ["causal_effects"]. *)
Lemma on_receive_document data w text :
  (on_receive E data w).1 = Return (dict_of [("result", PStr text)]) →
  ∃ d ge g ps jeffects jge jtr jout,
    prepare E data = Return (d, ge, g, ps) ∧
    text = json_text E (JObj [("causal_effects", JArr jeffects); ("graph_edges", jge);
                              ("treatments", jtr); ("outcomes", jout)]) ∧
    Forall2 (λ p j, to_json E (pair_entry E d g (get data "method") p) = Return j)
      ps jeffects.
Proof.
  intros (d & ge & g & ps & doc & Hprep & Hdoc & [= ->])%on_receive_result%receive_result_Return.
  apply to_json_dict_of_inv in Hdoc as (js & -> & Hjs). split_members. simpl in *.
  match goal with H : _ = Return _ |- _ =>
    apply to_json_PList_inv in H as (jeffects & -> & Heff) end.
  exists d, ge, g, ps, jeffects. do 3 eexists. split; [done|]. split; [done|].
  by apply Forall2_fmap_l in Heff.
Qed.

Lemma pairs_of_lists T O : pairs_of E (PList T) (PList O) = Return (list_prod T O).
Proof. unfold pairs_of. simpl. by destruct T. Qed.

End Success.

(** ** The claims *)

(** C1.  When the input's ['treatment'] is a list [T] and its ['outcome'] a
    list [O] and [on_receive] answers with a ["result"], the result is the
    text of a JSON document whose ["causal_effects"], read back, is a list
    with one record for each pair of [T] x [O]: [length T * length O]
    records, in the order of the nested loop (the treatments in order, for
    each the outcomes in order), each holding under ["treatment"] and
    ["outcome"] the pair's names as JSON gives them back. *)
Theorem on_receive_one_record_per_pair (E : Env) (data : gmap string pyval)
    (w : world) (T O : list pyval) (text : string) :
  data !! "treatment" = Some (PList T) →
  data !! "outcome" = Some (PList O) →
  (on_receive E data w).1 = Return (dict_of [("result", PStr text)]) →
  ∃ doc effects,
    text = json_text E doc ∧
    dict_get (of_json doc) "causal_effects" = Some (PList effects) ∧
    length effects = (length T * length O)%nat ∧
    Forall2 (λ p entry,
               ∃ jt jo,
                 to_json E p.1 = Return jt ∧ to_json E p.2 = Return jo ∧
                 dict_get entry "treatment" = Some (of_json jt) ∧
                 dict_get entry "outcome" = Some (of_json jo))
      (list_prod T O) effects.
Proof.
  intros HT HO (d & ge & g & ps & jeffects & jge & jtr & jout & Hprep & -> & Heff)
    %on_receive_document.
  apply prepare_Return in Hprep as (_ & _ & _ & Hps).
  unfold get in Hps. rewrite HT, HO in Hps. simpl in Hps.
  rewrite pairs_of_lists in Hps. injection Hps as <-.
  eexists _, (of_json <$> jeffects). split; [done|]. split; [done|]. split.
  - rewrite length_fmap, <- (Forall2_length _ _ _ Heff). apply length_prod.
  - apply Forall2_fmap_r. eapply Forall2_impl; [exact Heff|].
    intros p j (jt & jo & ? & ? & ? & ? & _)%pair_entry_reparsed. by exists jt, jo.
Qed.

(** In an environment whose decoder reads back the text of a document,
    [json.loads] of that text is the document's value. *)
Lemma json_loads_json_text (E : Env) (doc : json) :
  json_decode E (json_text E doc) = Return doc →
  json_loads E (PStr (json_text E doc)) = Return (of_json doc).
Proof. simpl. by intros ->. Qed.

(** For a name that is a string, what JSON gives back is the name. *)
Lemma to_json_name (E : Env) (s : string) (j : json) :
  to_json E (PStr s) = Return j → of_json j = PStr s.
Proof. by intros [= <-]. Qed.

Lemma on_receive_one_record_per_pair_example :
  ∃ doc effects,
    Example.answer = json_text Example.env doc ∧
    dict_get (of_json doc) "causal_effects" = Some (PList effects) ∧
    length effects = 2%nat ∧
    Forall2 (λ p entry,
               ∃ jt jo,
                 to_json Example.env p.1 = Return jt ∧
                 to_json Example.env p.2 = Return jo ∧
                 dict_get entry "treatment" = Some (of_json jt) ∧
                 dict_get entry "outcome" = Some (of_json jo))
      [(PStr "x", PStr "y"); (PStr "z", PStr "y")] effects.
Proof.
  apply (on_receive_one_record_per_pair Example.env Example.task Example.w0
           [PStr "x"; PStr "z"] [PStr "y"] Example.answer).
  - reflexivity.
  - reflexivity.
  - vm_compute. reflexivity.
Defined.

(** C10.  Every record of the ["causal_effects"] list of a successful call
    is a dictionary with the keys ["treatment"] and ["outcome"] and, besides
    them, either exactly ["estimate"], ["method"] and ["interpretation"] or
    exactly ["error"]. *)
Theorem on_receive_record_shapes (E : Env) (data : gmap string pyval) (w : world)
    (text : string) :
  (on_receive E data w).1 = Return (dict_of [("result", PStr text)]) →
  ∃ doc effects,
    text = json_text E doc ∧
    dict_get (of_json doc) "causal_effects" = Some (PList effects) ∧
    Forall (λ entry,
              dict_keys entry
                = PStr <$> ["treatment"; "outcome"; "estimate"; "method"; "interpretation"]
              ∨ dict_keys entry = PStr <$> ["treatment"; "outcome"; "error"])
      effects.
Proof.
  intros (d & ge & g & ps & jeffects & jge & jtr & jout & _ & -> & Heff)
    %on_receive_document.
  eexists _, (of_json <$> jeffects). split; [done|]. split; [done|].
  apply Forall_fmap. eapply Forall2_Forall_r; [exact Heff|].
  apply Forall_forall. intros p _ j.
  by intros (jt & jo & _ & _ & _ & _ & Hkeys)%pair_entry_reparsed.
Qed.

Lemma on_receive_record_shapes_example :
  ∃ doc effects,
    Example.answer = json_text Example.env doc ∧
    dict_get (of_json doc) "causal_effects" = Some (PList effects) ∧
    Forall (λ entry,
              dict_keys entry
                = PStr <$> ["treatment"; "outcome"; "estimate"; "method"; "interpretation"]
              ∨ dict_keys entry = PStr <$> ["treatment"; "outcome"; "error"])
      effects.
Proof.
  apply (on_receive_record_shapes Example.env Example.task Example.w0 Example.answer).
  vm_compute. reflexivity.
Defined.

(** C4.  On success the value under ["result"] is [json.dumps] of a
    dictionary with exactly the keys ["causal_effects"], ["graph_edges"],
    ["treatments"] and ["outcomes"]; its ["graph_edges"] is what
    [json.loads] returns for the input's ['graph_edges'], and its
    ["treatments"] and ["outcomes"] are the input's ['treatment'] and
    ['outcome'] as they came. *)
Theorem on_receive_result_members (E : Env) (data : gmap string pyval) (w : world)
    (text : string) :
  (on_receive E data w).1 = Return (dict_of [("result", PStr text)]) →
  ∃ result effect_data edges_string graph_edges,
    json_dumps E result = Return text ∧
    dict_keys result = PStr <$> ["causal_effects"; "graph_edges"; "treatments"; "outcomes"] ∧
    dict_get result "causal_effects" = Some (PList effect_data) ∧
    data !! "graph_edges" = Some edges_string ∧
    json_loads E edges_string = Return graph_edges ∧
    dict_get result "graph_edges" = Some graph_edges ∧
    dict_get result "treatments" = Some (get data "treatment") ∧
    dict_get result "outcomes" = Some (get data "outcome").
Proof.
  intros Hres%on_receive_result. unfold receive_result in Hres.
  destruct (prepare E data) as [[[[d ge] g] ps]|] eqn:Hprep;
    cbn [mbind pyresult_bind] in Hres; [|discriminate].
  destruct (json_dumps E _) as [text'|] eqn:Htext;
    cbn [mbind pyresult_bind] in Hres; [|discriminate].
  injection Hres as <-.
  apply prepare_Return in Hprep as (_ & Hge & _ & _).
  unfold parse_graph_edges, get in Hge.
  destruct (data !! "graph_edges") as [s|] eqn:Hs; simpl in Hge; [|discriminate].
  destruct (is_None s); simpl in Hge; [discriminate|].
  eexists _, _, s, ge. split; [exact Htext|]. by repeat split.
Qed.

Lemma on_receive_result_members_example :
  ∃ result effect_data edges_string graph_edges,
    json_dumps Example.env result = Return Example.answer ∧
    dict_keys result = PStr <$> ["causal_effects"; "graph_edges"; "treatments"; "outcomes"] ∧
    dict_get result "causal_effects" = Some (PList effect_data) ∧
    Example.task !! "graph_edges" = Some edges_string ∧
    json_loads Example.env edges_string = Return graph_edges ∧
    dict_get result "graph_edges" = Some graph_edges ∧
    dict_get result "treatments" = Some (get Example.task "treatment") ∧
    dict_get result "outcomes" = Some (get Example.task "outcome").
Proof.
  apply (on_receive_result_members Example.env Example.task Example.w0 Example.answer).
  vm_compute. reflexivity.
Defined.

(** C3.  A call of [on_receive] never raises.  It returns a dictionary of
    one of two shapes: [{"result": s}] with [s] the text of a JSON document,
    when its [try] block returned, or [{"status": "Error " + str(e)}] when
    the block raised [e]; never one with both keys. *)
Theorem on_receive_result_or_status (E : Env) (data : gmap string pyval) (w : world) :
  ∃ answer w',
    on_receive E data w = (Return answer, w') ∧
    ((∃ doc, on_receive_body E data w = (Return answer, w') ∧
             answer = dict_of [("result", PStr (json_text E doc))]) ∨
     (∃ e, on_receive_body E data w = (Raise e, w') ∧
           answer = dict_of [("status", PStr ("Error " +:+ exn_str e))])) ∧
    ¬ (is_Some (dict_get answer "result") ∧ is_Some (dict_get answer "status")).
Proof.
  rewrite on_receive_eq, on_receive_body_eq.
  destruct (receive_result E data) as [v|e] eqn:Hres.
  - destruct (receive_result_Return _ _ _ Hres) as (_ & _ & _ & _ & doc & _ & _ & ->).
    eexists _, _. split; [done|]. split; [left; by exists doc|].
    simpl. intros [_ [? [=]]].
  - eexists _, _. split; [done|]. split; [right; by exists e|].
    simpl. intros [[? [=]] _].
Qed.

(** C5.  [on_create] returns [{"status": "initialized"}] for every input
    dictionary, the empty one included, and its [try] block never raises,
    so the [except] branch is never taken. *)
Theorem on_create_initialized (data : gmap string pyval) (w : world) :
  on_create data w = (Return (dict_of [("status", PStr "initialized")]), w) ∧
  on_create ∅ w = (Return (dict_of [("status", PStr "initialized")]), w) ∧
  ∀ e w', on_create_body data w ≠ (Raise e, w').
Proof. by repeat split. Qed.

(** C6.  [on_destroy] takes no argument and returns
    [{"status": "destroyed"}]. *)
Theorem on_destroy_destroyed (w : world) :
  on_destroy w = (Return (dict_of [("status", PStr "destroyed")]), w).
Proof. reflexivity. Qed.

(** A call returns the same value from any world, and leaves the variables
    of the module as they were. *)
Lemma run_call_frame (E : Env) (c : handler_call) (w w0 : world) :
  (run_call E c w).1 = (run_call E c w0).1 ∧
  module_globals (run_call E c w).2 = module_globals w.
Proof.
  destruct c as [data|data|]; simpl; [done| |done].
  by rewrite !on_receive_eq.
Qed.

(** C7.  No handler reads or writes a variable of the module: in any
    sequence of calls, each call returns what it returns when it is run
    alone (from any world [w0]), the module's variables are at the end what
    they were at the start, and [on_create] and [on_destroy] return their
    fixed dictionaries after any calls and for any input. *)
Theorem calls_do_not_interfere (E : Env) (cs : list handler_call) (w w0 : world) :
  (run_calls E cs w).1 = (λ c, (run_call E c w0).1) <$> cs ∧
  module_globals (run_calls E cs w).2 = module_globals w ∧
  (∀ data, (on_create data (run_calls E cs w).2).1
           = Return (dict_of [("status", PStr "initialized")])) ∧
  (on_destroy (run_calls E cs w).2).1 = Return (dict_of [("status", PStr "destroyed")]).
Proof.
  split; [|split; [|done]].
  - revert w. induction cs as [|c cs IH]; intros w; simpl; [done|].
    destruct (run_call E c w) as [r w1] eqn:Hc.
    specialize (IH w1). destruct (run_calls E cs w1) as [rs w2]. simpl in *.
    rewrite IH. f_equal. change r with (r, w1).1. rewrite <- Hc.
    apply run_call_frame.
  - revert w. induction cs as [|c cs IH]; intros w; simpl; [done|].
    destruct (run_call E c w) as [r w1] eqn:Hc.
    specialize (IH w1). destruct (run_calls E cs w1) as [rs w2]. simpl in *.
    rewrite IH. change w1 with (r, w1).2. rewrite <- Hc.
    apply run_call_frame. exact w.
Qed.

(** When loading the dataset raises, the call answers with the status of
    that error and prints nothing. *)
Lemma on_receive_dataset_error (E : Env) (data : gmap string pyval) (w : world) (e : exn) :
  load_dataset E (get data "dataset") = Raise e →
  on_receive E data w = (Return (dict_of [("status", PStr ("Error " +:+ exn_str e))]), w).
Proof.
  intros He. rewrite on_receive_eq.
  unfold receive_result, receive_output, prepare. rewrite He. simpl.
  by rewrite printed_nil.
Qed.



(** C9, as the code has it.  The dataset is loaded before the edges are
    looked at: without ['graph_edges'] (or with [None] for it) the call
    returns ["Error No graph edges provided for analysis."] when the
    dataset was loaded, and the status of the dataset's error when loading
    it raised; in both cases nothing else is returned or printed. *)
Theorem on_receive_without_graph_edges (E : Env) (data : gmap string pyval) (w : world) :
  data !! "graph_edges" = None ∨ data !! "graph_edges" = Some PNone →
  on_receive E data w
  = (Return (dict_of [("status", PStr ("Error " +:+
       match load_dataset E (get data "dataset") with
       | Return _ => "No graph edges provided for analysis."
       | Raise e => exn_str e
       end))]), w).
Proof.
  intros Hge. destruct (load_dataset E (get data "dataset")) as [d|e] eqn:Hd.
  - rewrite on_receive_eq. unfold receive_result, receive_output, prepare.
    rewrite Hd. unfold parse_graph_edges. cbn [mbind pyresult_bind].
    assert (get data "graph_edges" = PNone) as ->
      by (unfold get; by destruct Hge as [-> | ->]).
    simpl. by rewrite printed_nil.
  - by apply on_receive_dataset_error.
Qed.

Lemma on_receive_without_graph_edges_example :
  on_receive Example.env Example.edgeless_task Example.w0
  = (Return (dict_of [("status", PStr "Error No graph edges provided for analysis.")]),
     Example.w0).
Proof.
  apply (on_receive_without_graph_edges Example.env Example.edgeless_task Example.w0).
  left. reflexivity.
Defined.

(** C9 as stated fails: a task without ['graph_edges'] whose dataset names
    a missing file is answered with the dataset's error. *)
Lemma on_receive_without_graph_edges_dataset_first :
  Example.missing_task !! "graph_edges" = None ∧
  on_receive Example.env Example.missing_task Example.w0
  = (Return (dict_of [("status", PStr "Error Invalid data path or data format.")]),
     Example.w0) ∧
  on_receive Example.env Example.missing_task Example.w0
  ≠ (Return (dict_of [("status", PStr "Error No graph edges provided for analysis.")]),
     Example.w0).
Proof. split; [reflexivity|]. split; [reflexivity|]. vm_compute. discriminate. Qed.




(** ** Further properties of [on_receive] *)



(** X2.  With no treatment the outcomes are never iterated: the call
    succeeds with an empty ["causal_effects"] whatever ['outcome'] is, even
    absent, as long as [json.dumps] accepts it. *)
Theorem on_receive_no_treatment (E : Env) (data : gmap string pyval) (w : world)
    (d ge g : pyval) (text : string) :
  load_dataset E (get data "dataset") = Return d →
  parse_graph_edges E (get data "graph_edges") = Return ge →
  DiGraph E ge = Return g →
  py_iter E (get data "treatment") = Return [] →
  json_dumps E (compile_result [] ge (get data "treatment") (get data "outcome"))
  = Return text →
  on_receive E data w = (Return (dict_of [("result", PStr text)]), w).
Proof.
  intros Hd Hge Hg HT Htext. rewrite on_receive_eq.
  unfold receive_result, receive_output, prepare, pairs_of.
  rewrite Hd, Hge. cbn [mbind pyresult_bind]. rewrite Hg, HT.
  cbn [mbind pyresult_bind fmap list_fmap]. rewrite Htext. cbn [mbind pyresult_bind].
  by rewrite printed_nil.
Qed.

Lemma on_receive_no_treatment_example :
  on_receive Example.env
    (<["treatment" := PList []]> (delete "outcome" Example.task)) Example.w0
  = (Return (dict_of [("result", PStr (
       "{" +:+ Example.quoted "causal_effects" +:+ ": [], "
       +:+ Example.quoted "graph_edges" +:+ ": " +:+ Example.edges_text +:+ ", "
       +:+ Example.quoted "treatments" +:+ ": [], "
       +:+ Example.quoted "outcomes" +:+ ": null}"))]), Example.w0).
Proof.
  apply (on_receive_no_treatment Example.env _ Example.w0
           Example.dataframe (PList [PList [PStr "x"; PStr "y"]]) Example.digraph);
    reflexivity.
Defined.

(** X3.  A ['dataset'] that is already a parsed value (a number, a list, a
    tuple or a dictionary) is rejected: [json.loads] raises a [TypeError]
    for it, and in the handler of that error [Path] raises another one,
    which becomes the status. *)
Theorem on_receive_parsed_dataset (E : Env) (data : gmap string pyval) (w : world)
    (v : pyval) :
  data !! "dataset" = Some v →
  match v with
  | PBool _ | PInt _ | PFloat _ | PList _ | PTuple _ | PDict _ => True
  | _ => False
  end →
  on_receive E data w
  = (Return (dict_of [("status", PStr ("Error " +:+ path_type_error E v))]), w).
Proof.
  intros Hd Hv.
  apply (on_receive_dataset_error E data w (type_error (path_type_error E v))).
  unfold get. rewrite Hd. by destruct v.
Qed.

Lemma on_receive_parsed_dataset_example :
  on_receive Example.env (<["dataset" := PList []]> Example.task) Example.w0
  = (Return (dict_of [("status",
       PStr "Error expected str, bytes or os.PathLike object, not list")]), Example.w0).
Proof.
  apply (on_receive_parsed_dataset Example.env _ Example.w0 (PList []));
    [reflexivity | exact I].
Defined.

(** ** Reading back what was written *)

Section Roundtrip.
Variable E : Env.

(** A list whose elements are written is written as their array. *)
Lemma to_json_PList_Forall2 l js :
  Forall2 (λ v j, to_json E v = Return j) l js → to_json E (PList l) = Return (JArr js).
Proof.
  intros Hl. simpl. set (elements := fix elements (l : list pyval) := _).
  assert (elements l = Return js) as ->; [|done].
  induction Hl as [|v j l js Hj _ IH]; simpl; [done|].
  rewrite Hj. simpl. rewrite IH. done.
Qed.

(** A dictionary with string keys whose values are written is written as
    the object of their members. *)
Lemma to_json_PDict_Forall2 kvs ms :
  Forall2 (λ kv m, kv.1 = PStr m.1 ∧ to_json E kv.2 = Return m.2) kvs ms →
  to_json E (PDict kvs) = Return (JObj ms).
Proof.
  intros Hl. simpl. set (members := fix members (l : list (pyval * pyval)) := _).
  assert (members kvs = Return ms) as ->; [|done].
  induction Hl as [|[k v] [n j] l ms [Hk Hj] _ IH]; simpl in *; [done|].
  rewrite Hk. simpl. rewrite Hj. simpl. rewrite IH. done.
Qed.

Lemma serializable_PList l :
  Forall (serializable E) l → serializable E (PList l).
Proof.
  intros Hl.
  assert (∃ js, Forall2 (λ v j, to_json E v = Return j) l js) as [js Hjs].
  { induction Hl as [|v l [j Hj] _ [js IH]]; [by exists []|].
    exists (j :: js). by constructor. }
  exists (JArr js). by apply to_json_PList_Forall2.
Qed.

Lemma serializable_PDict kvs :
  Forall (λ kv, (∃ k, kv.1 = PStr k) ∧ serializable E kv.2) kvs →
  serializable E (PDict kvs).
Proof.
  intros Hl.
  assert (∃ ms, Forall2 (λ kv m, kv.1 = PStr m.1 ∧ to_json E kv.2 = Return m.2) kvs ms)
    as [ms Hms].
  { induction Hl as [|[k v] l [[n Hn] [j Hj]] _ [ms IH]]; [by exists []|].
    exists ((n, j) :: ms). by constructor. }
  exists (JObj ms). by apply to_json_PDict_Forall2.
Qed.

(** [dict_set] keeps the keys strings, and the values within a property
    the new value has. *)
Lemma dict_set_Forall (Q : pyval → Prop) k v acc :
  Q v →
  Forall (λ kv, (∃ k', kv.1 = PStr k') ∧ Q kv.2) acc →
  Forall (λ kv, (∃ k', kv.1 = PStr k') ∧ Q kv.2) (dict_set k v acc).
Proof.
  intros Hv Hacc. induction Hacc as [|[k0 v0] acc [[k' Hk'] Hv0] Hacc IH]; simpl in *.
  - constructor; [|constructor]. split; [by eexists|done].
  - subst k0. destruct (String.eqb k k').
    + constructor; [|done]. split; [by eexists|done].
    + constructor; [|done]. split; [by eexists|done].
Qed.

(** A new name goes to the end. *)
Lemma dict_set_fresh k v acc :
  Forall (λ kv, ∃ k', kv.1 = PStr k' ∧ k' ≠ k) acc →
  dict_set k v acc = acc ++ [(PStr k, v)].
Proof.
  induction 1 as [|[k0 v0] acc (k' & Hk' & Hne) _ IH]; simpl in *; [done|].
  subst k0. destruct (String.eqb_spec k k') as [->|_]; [done|]. by rewrite IH.
Qed.

(** The items of the dictionary read from an object: every key is a string
    and every value the value of a member. *)
Lemma of_json_JObj_items (Q : pyval → Prop) ms :
  Forall (λ m, Q (of_json m.2)) ms →
  ∃ kvs, of_json (JObj ms) = PDict kvs ∧
         Forall (λ kv, (∃ k, kv.1 = PStr k) ∧ Q kv.2) kvs.
Proof.
  intros Hms. simpl. set (members := fix members (ms : list (string * json)) acc := _).
  eexists. split; [done|].
  assert (∀ acc,
    Forall (λ kv, (∃ k, kv.1 = PStr k) ∧ Q kv.2) acc →
    Forall (λ kv, (∃ k, kv.1 = PStr k) ∧ Q kv.2) (members ms acc)) as Hfold.
  { induction Hms as [|[k j] ms Hj _ IHms]; intros acc Hacc; simpl; [done|].
    apply IHms. by apply dict_set_Forall. }
  apply Hfold. constructor.
Qed.

(** The items of the dictionary read from an object without a repeated
    name: its members, in order. *)
Lemma of_json_JObj_distinct ms :
  NoDup ms.*1 →
  of_json (JObj ms) = PDict ((λ m, (PStr m.1, of_json m.2)) <$> ms).
Proof.
  intros Hnd. simpl. set (members := fix members (ms : list (string * json)) acc := _).
  f_equal. change (members ms [] = [] ++ ((λ m, (PStr m.1, of_json m.2)) <$> ms)).
  assert (Forall (λ k, Forall (λ kv : pyval * pyval, ∃ k', kv.1 = PStr k' ∧ k' ≠ k) [])
            ms.*1) as Hacc by (apply Forall_forall; intros; constructor).
  revert Hacc. generalize (@nil (pyval * pyval)) as acc.
  induction ms as [|[k j] ms IHms]; intros acc Hacc; simpl.
  - by rewrite app_nil_r.
  - apply NoDup_cons in Hnd as [Hk Hnd]. simpl in Hacc.
    apply Forall_cons in Hacc as [Hacc1 Hacc2].
    rewrite (dict_set_fresh _ _ _ Hacc1), (IHms Hnd), <- app_assoc; [done|].
    apply Forall_forall. intros k' Hk'. apply Forall_app. split.
    + by apply (proj1 (Forall_forall _ _) Hacc2).
    + constructor; [|constructor]. exists k. split; [done|]. by intros ->.
Qed.

(** Whatever [json.loads] returns, [json.dumps] accepts. *)
Lemma of_json_serializable j : serializable E (of_json j).
Proof.
  induction j as [| | | | |js IH|ms IH] using json_nested_ind;
    try (by eexists).
  - change (of_json (JArr js)) with (PList (of_json <$> js)).
    apply serializable_PList. by apply Forall_fmap.
  - destruct (of_json_JObj_items (serializable E) ms IH) as (kvs & -> & Hkvs).
    by apply serializable_PDict.
Qed.

(** A document without repeated names is written back as it was read. *)
Lemma to_json_of_json j :
  distinct_names j = true → to_json E (of_json j) = Return j.
Proof.
  induction j as [| | | | |js IH|ms IH] using json_nested_ind; try done.
  - intros Hd. change (of_json (JArr js)) with (PList (of_json <$> js)).
    apply to_json_PList_Forall2, Forall2_fmap_l, Forall_Forall2_diag.
    change (forallb distinct_names js = true) in Hd.
    apply Is_true_true, forallb_True in Hd.
    eapply Forall_impl; [apply Forall_and; split; [exact IH|exact Hd]|].
    intros j [Hj Hdj]. apply Hj. by apply Is_true_true.
  - intros Hd.
    change (bool_decide (NoDup ms.*1) &&
            (fix members (ms : list (string * json)) : bool :=
               match ms with
               | [] => true
               | (_, j) :: rest => distinct_names j && members rest
               end) ms = true) in Hd.
    apply andb_true_iff in Hd as [Hnd Hd]. apply bool_decide_eq_true in Hnd.
    rewrite (of_json_JObj_distinct _ Hnd).
    apply to_json_PDict_Forall2, Forall2_fmap_l, Forall_Forall2_diag.
    clear Hnd. induction IH as [|[k j] ms Hj _ IHms]; [constructor|].
    apply andb_true_iff in Hd as [Hd1 Hd2].
    constructor; [|by apply IHms]. split; [done|]. by apply Hj.
Qed.

(** [json.loads] only returns values of documents. *)
Lemma json_loads_Return v x :
  json_loads E v = Return x → ∃ j, x = of_json j.
Proof.
  destruct v; simpl; try discriminate.
  - destruct (json_decode E s) as [j|]; simpl; [|discriminate].
    intros [= <-]. by exists j.
  - destruct (bytes_decode E bs) as [text|]; simpl; [|discriminate].
    destruct (json_decode E text) as [j|]; simpl; [|discriminate].
    intros [= <-]. by exists j.
Qed.

End Roundtrip.

(** ** More on the checks before the loop *)

(** A call that got through the checks: its value is decided by
    [json.dumps], and it prints the lines of its pairs. *)
Lemma on_receive_prepared (E : Env) (data : gmap string pyval) (w : world)
    (d ge g : pyval) (ps : list (pyval * pyval)) :
  prepare E data = Return (d, ge, g, ps) →
  on_receive E data w
  = (Return match json_dumps E (compile_result (pair_entry E d g (get data "method") <$> ps)
                                  ge (get data "treatment") (get data "outcome")) with
            | Return text => dict_of [("result", PStr text)]
            | Raise e => dict_of [("status", PStr ("Error " +:+ exn_str e))]
            end,
     printed (ps ≫= pair_output E d g (get data "method")) w).
Proof.
  intros Hp. rewrite on_receive_eq. unfold receive_result, receive_output.
  rewrite Hp. cbn [mbind pyresult_bind]. by destruct (json_dumps E _).
Qed.

(** A call stopped by one of the checks: it answers with the status of the
    error and prints nothing. *)
Lemma on_receive_stopped (E : Env) (data : gmap string pyval) (w : world) (e : exn) :
  prepare E data = Raise e →
  on_receive E data w = (Return (dict_of [("status", PStr ("Error " +:+ exn_str e))]), w).
Proof.
  intros Hp. rewrite on_receive_eq. unfold receive_result, receive_output.
  rewrite Hp. cbn [mbind pyresult_bind]. by rewrite printed_nil.
Qed.

(** X4.  The edges have no fallback: once the dataset is loaded, whatever
    [json.loads] raises for a ['graph_edges'] that is not [None] (text that
    is not JSON, or a value that is not text, such as a list of edges
    already parsed) becomes the status, and nothing is printed. *)
Theorem on_receive_bad_graph_edges (E : Env) (data : gmap string pyval) (w : world)
    (d v : pyval) (e : exn) :
  load_dataset E (get data "dataset") = Return d →
  data !! "graph_edges" = Some v →
  is_None v = false →
  json_loads E v = Raise e →
  on_receive E data w
  = (Return (dict_of [("status", PStr ("Error " +:+ exn_str e))]), w).
Proof.
  intros Hd Hv Hn He. apply on_receive_stopped.
  unfold prepare, parse_graph_edges, get in *. rewrite Hd, Hv.
  cbn [mbind pyresult_bind default from_option id]. by rewrite Hn, He.
Qed.

Lemma on_receive_bad_graph_edges_example :
  on_receive Example.env (<["graph_edges" := PList []]> Example.task) Example.w0
  = (Return (dict_of [("status",
       PStr "Error the JSON object must be str, bytes or bytearray, not list")]),
     Example.w0).
Proof.
  apply (on_receive_bad_graph_edges Example.env _ Example.w0 Example.dataframe (PList [])
           (type_error "the JSON object must be str, bytes or bytearray, not list"));
    reflexivity.
Defined.

(** X5.  After the checks, a ['treatment'] that is absent, [None] or a
    number stops the call with the status of the [TypeError] of the [for]
    statement; so does such an ['outcome'] as soon as there is one
    treatment.  No pair is tried and nothing is printed. *)
Theorem on_receive_not_iterable (E : Env) (data : gmap string pyval) (w : world)
    (d ge g : pyval) :
  load_dataset E (get data "dataset") = Return d →
  parse_graph_edges E (get data "graph_edges") = Return ge →
  DiGraph E ge = Return g →
  (match get data "treatment" with
   | PNone | PBool _ | PInt _ | PFloat _ => True
   | _ => False
   end →
   on_receive E data w
   = (Return (dict_of [("status", PStr ("Error '" +:+ type_name E (get data "treatment")
                                        +:+ "' object is not iterable"))]), w)) ∧
  (∀ t T,
     py_iter E (get data "treatment") = Return (t :: T) →
     match get data "outcome" with
     | PNone | PBool _ | PInt _ | PFloat _ => True
     | _ => False
     end →
     on_receive E data w
     = (Return (dict_of [("status", PStr ("Error '" +:+ type_name E (get data "outcome")
                                          +:+ "' object is not iterable"))]), w)).
Proof.
  intros Hd Hge Hg. split.
  - intros Ht.
    apply (on_receive_stopped E data w
             (type_error ("'" +:+ type_name E (get data "treatment")
                          +:+ "' object is not iterable"))).
    unfold prepare, pairs_of. rewrite Hd, Hge. cbn [mbind pyresult_bind]. rewrite Hg.
    cbn [mbind pyresult_bind]. by destruct (get data "treatment").
  - intros t T HT Ho.
    apply (on_receive_stopped E data w
             (type_error ("'" +:+ type_name E (get data "outcome")
                          +:+ "' object is not iterable"))).
    unfold prepare, pairs_of. rewrite Hd, Hge. cbn [mbind pyresult_bind]. rewrite Hg, HT.
    cbn [mbind pyresult_bind]. by destruct (get data "outcome").
Qed.

Lemma on_receive_not_iterable_example :
  on_receive Example.env (delete "treatment" Example.task) Example.w0
  = (Return (dict_of [("status", PStr "Error 'NoneType' object is not iterable")]),
     Example.w0) ∧
  on_receive Example.env (<["outcome" := PInt 3]> Example.task) Example.w0
  = (Return (dict_of [("status", PStr "Error 'int' object is not iterable")]),
     Example.w0).
Proof.
  split.
  - refine (proj1 (on_receive_not_iterable Example.env (delete "treatment" Example.task)
                     Example.w0 Example.dataframe (PList [PList [PStr "x"; PStr "y"]])
                     Example.digraph _ _ _) _);
      [reflexivity | reflexivity | reflexivity | exact I].
  - refine (proj2 (on_receive_not_iterable Example.env (<["outcome" := PInt 3]> Example.task)
                     Example.w0 Example.dataframe (PList [PList [PStr "x"; PStr "y"]])
                     Example.digraph _ _ _)
              (PStr "x") [PStr "z"] _ _);
      [reflexivity | reflexivity | reflexivity | reflexivity | exact I].
Defined.

(** ** When the call succeeds *)

Section Succeeds.
Variable E : Env.

Lemma serializable_dict_of kvs :
  Forall (λ kv, serializable E kv.2) kvs → serializable E (dict_of kvs).
Proof.
  intros Hkvs. apply serializable_PDict, Forall_fmap.
  eapply Forall_impl; [exact Hkvs|]. intros [k v] Hv. split; [by exists k|done].
Qed.

Lemma serializable_names (names : list string) : serializable E (PList (PStr <$> names)).
Proof.
  apply serializable_PList, Forall_fmap, Forall_forall. intros s _. by eexists.
Qed.

(** The estimate in a record is what [estimate.value] returned. *)
Lemma estimate_pair_Return_value d g m t o entry :
  estimate_pair E d g m t o = Return entry →
  ∃ causal_estimate value interpretation,
    estimate_value E causal_estimate = Return value ∧
    entry = dict_of [("treatment", t); ("outcome", o); ("estimate", value);
                     ("method", m); ("interpretation", PStr interpretation)].
Proof.
  unfold estimate_pair.
  destruct (CausalModel E d g t o) as [cm|]; simpl; [|discriminate].
  destruct (identify_effect E cm) as [ie|]; simpl; [|discriminate].
  destruct (estimate_effect E cm ie m) as [ce|]; simpl; [|discriminate].
  destruct (estimate_value E ce) as [v|] eqn:Hv; simpl; [|discriminate].
  destruct (estimate_str E ce) as [s|]; simpl; [|discriminate].
  intros [= <-]. by exists ce, v, s.
Qed.

(** The record of a pair is accepted by [json.dumps] when the names, the
    method and the estimates are. *)
Lemma serializable_pair_entry d g m p :
  serializable E p.1 → serializable E p.2 → serializable E m →
  (∀ causal_estimate value,
     estimate_value E causal_estimate = Return value → serializable E value) →
  serializable E (pair_entry E d g m p).
Proof.
  intros Ht Ho Hm Hvalue. unfold pair_entry.
  destruct (estimate_pair E d g m p.1 p.2) as [entry|e] eqn:He.
  - apply estimate_pair_Return_value in He as (ce & v & s & Hv & ->).
    apply serializable_dict_of. repeat constructor; simpl; eauto. by eexists.
  - apply serializable_dict_of. repeat constructor; simpl; eauto. by eexists.
Qed.

End Succeeds.



(** X7.  What was sent comes back: in the document of a successful call,
    ["graph_edges"] is the document the input's edges were read from (when
    none of its objects repeats a name), and ["treatments"] and
    ["outcomes"] are the arrays of the names sent as lists of strings. *)
Theorem on_receive_echoes_input (E : Env) (data : gmap string pyval) (w : world)
    (edges_json : string) (edges : json) (T O : list string) (text : string) :
  data !! "graph_edges" = Some (PStr edges_json) →
  json_decode E edges_json = Return edges →
  distinct_names edges = true →
  data !! "treatment" = Some (PList (PStr <$> T)) →
  data !! "outcome" = Some (PList (PStr <$> O)) →
  (on_receive E data w).1 = Return (dict_of [("result", PStr text)]) →
  ∃ doc,
    text = json_text E doc ∧
    json_member doc "graph_edges" = Some edges ∧
    json_member doc "treatments" = Some (JArr (JStr <$> T)) ∧
    json_member doc "outcomes" = Some (JArr (JStr <$> O)).
Proof.
  intros Hs Hj Hdist HT HO
    (d & ge & g & ps & doc & Hprep & Hdoc & [= ->])%on_receive_result%receive_result_Return.
  exists doc. split; [done|].
  apply prepare_Return in Hprep as (_ & Hge & _ & _).
  unfold parse_graph_edges, get in Hge. rewrite Hs in Hge. simpl in Hge.
  rewrite Hj in Hge. injection Hge as <-.
  unfold get in Hdoc. rewrite HT, HO in Hdoc. cbn [default from_option id] in Hdoc.
  apply to_json_dict_of_inv in Hdoc as (js & -> & Hjs). split_members.
  cbn [fst snd] in *.
  repeat match goal with H : to_json E (of_json _) = _ |- _ =>
    rewrite (to_json_of_json E _ Hdist) in H; injection H as <- end.
  repeat match goal with H : to_json E (PList (PStr <$> ?l)) = _ |- _ =>
    rewrite (to_json_PList_Forall2 E (PStr <$> l) (JStr <$> l)) in H;
      [injection H as <-|by apply Forall2_fmap, Forall_Forall2_diag, Forall_forall]
  end.
  by repeat split.
Qed.

Lemma on_receive_echoes_input_example :
  ∃ doc,
    Example.answer = json_text Example.env doc ∧
    json_member doc "graph_edges" = Some (JArr [JArr [JStr "x"; JStr "y"]]) ∧
    json_member doc "treatments" = Some (JArr [JStr "x"; JStr "z"]) ∧
    json_member doc "outcomes" = Some (JArr [JStr "y"]).
Proof.
  apply (on_receive_echoes_input Example.env Example.task Example.w0
           Example.edges_text (JArr [JArr [JStr "x"; JStr "y"]]) ["x"; "z"] ["y"]
           Example.answer); reflexivity.
Defined.

(** X8.  JSON comes first: when the ['dataset'] is text that [json.loads]
    reads, the file system is never asked; the call returns and prints the
    same whatever [Path.exists] and [read_csv] would answer. *)
Theorem on_receive_json_dataset_ignores_files (E : Env) (data : gmap string pyval)
    (w : world) (s : string) (j : json)
    (exists_ : string → pyresult bool) (csv : string → pyresult pyval) :
  data !! "dataset" = Some (PStr s) →
  json_decode E s = Return j →
  on_receive (with_files E exists_ csv) data w = on_receive E data w.
Proof.
  intros Hd Hj. rewrite !on_receive_eq.
  assert (prepare (with_files E exists_ csv) data = prepare E data) as Hprep.
  { unfold prepare.
    assert (load_dataset (with_files E exists_ csv) (get data "dataset")
            = load_dataset E (get data "dataset")) as ->; [|reflexivity].
    unfold get. rewrite Hd. cbn [default from_option id].
    unfold load_dataset, try_catch, json_loads. cbn [json_decode with_files].
    rewrite Hj. reflexivity. }
  unfold receive_result, receive_output. rewrite Hprep. reflexivity.
Qed.

Lemma on_receive_json_dataset_ignores_files_example :
  on_receive (with_files Example.env (λ _, Return true) (λ _, Return PNone))
    (<["dataset" := PStr "[]"]> Example.task) Example.w0
  = on_receive Example.env (<["dataset" := PStr "[]"]> Example.task) Example.w0.
Proof.
  apply (on_receive_json_dataset_ignores_files Example.env _ Example.w0 "[]" (JArr []));
    reflexivity.
Defined.

(** X9.  The call reads five keys and nothing else, and a key that is
    absent counts as [None]: two inputs with the same [get] for
    ['dataset'], ['graph_edges'], ['method'], ['treatment'] and ['outcome']
    are answered alike. *)
Theorem on_receive_reads_five_keys (E : Env) (data data' : gmap string pyval) (w : world) :
  (∀ k, k ∈ ["dataset"; "graph_edges"; "method"; "treatment"; "outcome"] →
        get data k = get data' k) →
  on_receive E data w = on_receive E data' w.
Proof.
  intros Hk. rewrite !on_receive_eq.
  unfold receive_result, receive_output, prepare.
  rewrite !(Hk "dataset"), !(Hk "graph_edges"), !(Hk "method"), !(Hk "treatment"),
    !(Hk "outcome") by set_solver.
  reflexivity.
Qed.

Lemma on_receive_reads_five_keys_example :
  on_receive Example.env
    (<["note" := PStr "night shift"]> (<["method" := PNone]> Example.task)) Example.w0
  = on_receive Example.env (delete "method" Example.task) Example.w0.
Proof.
  apply (on_receive_reads_five_keys Example.env).
  intros k Hk. repeat (apply elem_of_cons in Hk as [->|Hk]; [reflexivity|]).
  by apply elem_of_nil in Hk.
Defined.

(** ** How the treatments are used *)

Section Treatments.
Variable E : Env.

Lemma get_insert_eq (data : gmap string pyval) k v : get (<[k := v]> data) k = v.
Proof. unfold get. by rewrite lookup_insert_eq. Qed.

Lemma get_insert_ne (data : gmap string pyval) k k' v :
  k ≠ k' → get (<[k := v]> data) k' = get data k'.
Proof. intros Hk. unfold get. by rewrite lookup_insert_ne. Qed.

Lemma get_with_treatment (data : gmap string pyval) v k :
  get (<["treatment" := v]> data) k
  = if String.eqb k "treatment" then v else get data k.
Proof.
  destruct (String.eqb_spec k "treatment") as [->|Hk].
  - apply get_insert_eq.
  - by apply get_insert_ne.
Qed.

(** A dictionary display whose values are written is written as the
    object of their documents, under the same names. *)
Lemma to_json_dict_of kvs js :
  Forall2 (λ kv j, to_json E kv.2 = Return j) kvs js →
  to_json E (dict_of kvs) = Return (JObj (zip kvs.*1 js)).
Proof.
  intros Hjs. apply to_json_PDict_Forall2.
  induction Hjs as [|[k v] j kvs js Hj _ IH]; simpl; [constructor|].
  by constructor.
Qed.

Lemma list_prod_app {A B} (l1 l2 : list A) (k : list B) :
  list_prod (l1 ++ l2) k = list_prod l1 k ++ list_prod l2 k.
Proof.
  induction l1 as [|x l1 IH]; simpl; [done|]. by rewrite IH, app_assoc.
Qed.

(** The pairs only depend on what iterating the treatments yields. *)
Lemma pairs_of_items treatments outs T :
  py_iter E treatments = Return T →
  pairs_of E treatments outs = pairs_of E (PList T) outs.
Proof. intros HT. unfold pairs_of. by rewrite HT. Qed.

(** The pairs of treatments put one after the other. *)
Lemma pairs_of_app T1 T2 outs ps :
  pairs_of E (PList (T1 ++ T2)) outs = Return ps →
  ∃ ps1 ps2,
    ps = ps1 ++ ps2 ∧
    pairs_of E (PList T1) outs = Return ps1 ∧
    pairs_of E (PList T2) outs = Return ps2.
Proof.
  unfold pairs_of. simpl.
  destruct (py_iter E outs) as [O|e]; simpl.
  - intros Hps. exists (list_prod T1 O), (list_prod T2 O). split; [|split].
    + rewrite <- list_prod_app. by destruct (T1 ++ T2); injection Hps as <-.
    + by destruct T1.
    + by destruct T2.
  - destruct T1 as [|t1 T1]; [|discriminate]. destruct T2 as [|t2 T2]; [|discriminate].
    intros [= <-]. by exists [], [].
Qed.

(** The items of a value that [json.dumps] accepts are accepted too. *)
Lemma serializable_items v T :
  py_iter E v = Return T → serializable E v → Forall (serializable E) T.
Proof.
  destruct v as [| | | |s|bs|l|l|kvs|o]; simpl; try discriminate.
  - intros [= <-] _. apply Forall_fmap, Forall_forall. intros c _. by eexists.
  - intros _ [j [=]].
  - intros [= <-] [j (js & _ & Hjs)%to_json_PList_inv].
    clear j. induction Hjs; constructor; [by eexists|done].
  - intros [= <-] [j (js & _ & Hjs)%to_json_PList_inv].
    clear j. induction Hjs; constructor; [by eexists|done].
  - intros [= <-] [j Hj]. simpl in Hj.
    set (members := fix members (l : list (pyval * pyval)) := _) in Hj.
    destruct (members kvs) as [ms|] eqn:Hms; [clear Hj|discriminate].
    revert ms Hms. induction kvs as [|[k v] kvs IH]; intros ms; simpl; [constructor|].
    destruct (json_key E k) as [name|] eqn:Hk; simpl; [|discriminate].
    destruct (to_json E v) as [jv|]; simpl; [|discriminate].
    destruct (members kvs) as [ms'|]; simpl; [|discriminate].
    intros _. constructor; [|by apply (IH ms')].
    destruct k as [|[|]| | | | | | | |]; try discriminate; by eexists.
  - intros _ [j [=]].
Qed.

End Treatments.



(** X11.  A batch can be split by treatments: when the call for the
    treatments [T1 ++ T2] succeeds, so do the calls for [T1] and for [T2]
    (everything else the same), the records of the whole are the records of
    the first followed by those of the second, and the two calls one after
    the other print what the whole prints. *)
Theorem on_receive_split_batch (E : Env) (data : gmap string pyval) (w : world)
    (T1 T2 : list pyval) (text : string) :
  (on_receive E (<["treatment" := PList (T1 ++ T2)]> data) w).1
  = Return (dict_of [("result", PStr text)]) →
  ∃ doc doc1 doc2 effects1 effects2,
    text = json_text E doc ∧
    json_member doc "causal_effects" = Some (JArr (effects1 ++ effects2)) ∧
    (on_receive E (<["treatment" := PList T1]> data) w).1
    = Return (dict_of [("result", PStr (json_text E doc1))]) ∧
    json_member doc1 "causal_effects" = Some (JArr effects1) ∧
    (on_receive E (<["treatment" := PList T2]> data) w).1
    = Return (dict_of [("result", PStr (json_text E doc2))]) ∧
    json_member doc2 "causal_effects" = Some (JArr effects2) ∧
    (on_receive E (<["treatment" := PList T2]> data)
       (on_receive E (<["treatment" := PList T1]> data) w).2).2
    = (on_receive E (<["treatment" := PList (T1 ++ T2)]> data) w).2.
Proof.
  intros Hres.
  destruct (receive_result_Return _ _ _ (on_receive_result _ _ _ _ Hres))
    as (d & ge & g & ps & doc & Hprep & Hdoc & [= ->]).
  rewrite (on_receive_prepared _ _ _ _ _ _ _ Hprep). cbn [snd].
  apply prepare_Return in Hprep as (Hd & Hge & Hg & Hps).
  rewrite !get_with_treatment in *. simpl (String.eqb _ _) in *. cbv iota in *.
  apply pairs_of_app in Hps as (ps1 & ps2 & -> & Hps1 & Hps2).
  apply to_json_dict_of_inv in Hdoc as (js & -> & Hjs). split_members. cbn [fst snd] in *.
  match goal with H : to_json E (PList (_ <$> _)) = Return _ |- _ =>
    apply to_json_PList_inv in H as (jeffects & -> & Heff) end.
  match goal with H : to_json E (PList (T1 ++ T2)) = Return _ |- _ =>
    apply to_json_PList_inv in H as (jT & -> & HjT) end.
  rewrite fmap_app in Heff.
  apply Forall2_app_inv_l in Heff as (effects1 & effects2 & Heff1 & Heff2 & ->).
  apply Forall2_app_inv_l in HjT as (jT1 & jT2 & HjT1 & HjT2 & ->).
  assert (prepare E (<["treatment" := PList T1]> data) = Return (d, ge, g, ps1)) as Hprep1.
  { unfold prepare. rewrite !get_with_treatment. simpl (String.eqb _ _). cbv iota.
    rewrite Hd, Hge. cbn [mbind pyresult_bind]. rewrite Hg. cbn [mbind pyresult_bind].
    by rewrite Hps1. }
  assert (prepare E (<["treatment" := PList T2]> data) = Return (d, ge, g, ps2)) as Hprep2.
  { unfold prepare. rewrite !get_with_treatment. simpl (String.eqb _ _). cbv iota.
    rewrite Hd, Hge. cbn [mbind pyresult_bind]. rewrite Hg. cbn [mbind pyresult_bind].
    by rewrite Hps2. }
  rewrite (on_receive_prepared _ _ _ _ _ _ _ Hprep1).
  rewrite !(on_receive_prepared _ _ _ _ _ _ _ Hprep2).
  rewrite !get_with_treatment. simpl (String.eqb _ _). cbv iota.
  unfold json_dumps, compile_result.
  erewrite (to_json_dict_of E
              [("causal_effects", PList (pair_entry E d g (get data "method") <$> ps1));
               ("graph_edges", ge); ("treatments", PList T1);
               ("outcomes", get data "outcome")]
              [JArr effects1; _; JArr jT1; _]);
    [|repeat constructor; cbn [snd]; try eassumption; by apply to_json_PList_Forall2].
  erewrite (to_json_dict_of E
              [("causal_effects", PList (pair_entry E d g (get data "method") <$> ps2));
               ("graph_edges", ge); ("treatments", PList T2);
               ("outcomes", get data "outcome")]
              [JArr effects2; _; JArr jT2; _]);
    [|repeat constructor; cbn [snd]; try eassumption; by apply to_json_PList_Forall2].
  cbn [fmap pyresult_fmap fst snd].
  eexists _, _, _, effects1, effects2. repeat split.
  by rewrite printed_app, bind_app.
Qed.

Lemma on_receive_split_batch_example :
  ∃ doc doc1 doc2 effects1 effects2,
    Example.answer = json_text Example.env doc ∧
    json_member doc "causal_effects" = Some (JArr (effects1 ++ effects2)) ∧
    (on_receive Example.env (<["treatment" := PList [PStr "x"]]> Example.task) Example.w0).1
    = Return (dict_of [("result", PStr (json_text Example.env doc1))]) ∧
    json_member doc1 "causal_effects" = Some (JArr effects1) ∧
    (on_receive Example.env (<["treatment" := PList [PStr "z"]]> Example.task) Example.w0).1
    = Return (dict_of [("result", PStr (json_text Example.env doc2))]) ∧
    json_member doc2 "causal_effects" = Some (JArr effects2) ∧
    (on_receive Example.env (<["treatment" := PList [PStr "z"]]> Example.task)
       (on_receive Example.env (<["treatment" := PList [PStr "x"]]> Example.task)
          Example.w0).2).2
    = (on_receive Example.env (<["treatment" := PList ([PStr "x"] ++ [PStr "z"])]> Example.task)
         Example.w0).2.
Proof.
  apply (on_receive_split_batch Example.env Example.task Example.w0
           [PStr "x"] [PStr "z"] Example.answer).
  vm_compute. reflexivity.
Defined.

(** ** The example script *)

(** A call prints at most one line for each pair. *)
Lemma receive_output_length (E : Env) (data : gmap string pyval) (T O : list pyval) :
  get data "treatment" = PList T →
  get data "outcome" = PList O →
  (List.length (receive_output E data) ≤ List.length T * List.length O)%nat.
Proof.
  intros HT HO. unfold receive_output.
  destruct (prepare E data) as [[[[d ge] g] ps]|] eqn:Hprep; [|simpl; lia].
  apply prepare_Return in Hprep as (_ & _ & _ & Hps).
  rewrite HT, HO, pairs_of_lists in Hps. injection Hps as <-.
  rewrite <- length_prod. generalize (list_prod T O) as ps.
  unfold mbind. induction ps as [|p ps IH]; simpl; [lia|].
  rewrite length_app. unfold pair_output at 1.
  destruct (estimate_pair E d g _ p.1 p.2); simpl; lia.
Qed.


(** ** Datasets given as paths *)

(** X13.  The [TypeError] of [json.loads] is caught so that a path-like
    object can name the dataset: such an object is treated exactly like the
    string it stands for, when that string is not JSON (so that the string
    too is taken as a path). *)
Theorem on_receive_pathlike_dataset (E : Env) (data : gmap string pyval) (w : world)
    (o : objref) (s : string) (e : exn) :
  obj_fspath E o = Some s →
  json_decode E s = Raise e →
  except [JSONDecodeError; TypeError] e = true →
  on_receive E (<["dataset" := PObj o]> data) w
  = on_receive E (<["dataset" := PStr s]> data) w.
Proof.
  intros Ho Hs He. rewrite !on_receive_eq.
  assert (prepare E (<["dataset" := PObj o]> data)
          = prepare E (<["dataset" := PStr s]> data)) as Hprep.
  { unfold prepare. rewrite !get_insert_eq, !get_insert_ne by done.
    assert (load_dataset E (PObj o) = load_dataset E (PStr s)) as ->; [|done].
    unfold load_dataset, try_catch, json_loads. rewrite Hs. cbn [fmap pyresult_fmap].
    rewrite He. cbn [except existsb isinstance issubclass exn_cls type_error orb].
    unfold pathlib_Path. by rewrite Ho. }
  unfold receive_result, receive_output. rewrite Hprep.
  by rewrite !get_insert_ne by done.
Qed.

Lemma on_receive_pathlike_dataset_example :
  on_receive pathlike_env (<["dataset" := PObj 9%N]> Example.task) Example.w0
  = on_receive pathlike_env (<["dataset" := PStr "data.csv"]> Example.task) Example.w0.
Proof.
  apply (on_receive_pathlike_dataset pathlike_env Example.task Example.w0 9%N "data.csv"
           (mk_exn JSONDecodeError "Expecting value: line 1 column 1 (char 0)"));
    reflexivity.
Defined.
